(** * canvas-mcp: the Canvas client and its tools

    A shallow embedding of [src/canvas_mcp/client.py] (class [CanvasClient],
    its request primitive and the operations built on it) and of the tools of
    [src/canvas_mcp/server.py] that do more than forward their arguments.

    Python dictionaries are finite maps ([gmap string pyval]); a call on the
    network is an entry appended to a log that every operation threads, and an
    exception is a result of its own. *)

From Stdlib Require Import ZArith String Ascii.
From Stdlib Require Import Floats.PrimFloat.
From stdpp Require Import gmap strings list fin_maps pretty.

Set Warnings "-register-all".
Local Open Scope Z_scope.

(** ** Python values *)

(** The values that travel through the client: parameters, form fields and
    decoded JSON bodies ([Any] in the annotations of the source). *)
Inductive pyval : Type :=
  | VNone
  | VBool (b : bool)
  | VInt (z : Z)
  | VFloat (f : PrimFloat.float)
  | VStr (s : string)
  | VList (l : list pyval)
  | VDict (d : gmap string pyval).

(** A form or query payload, [Dict[str, Any]]. *)
Abbreviation payload := (gmap string pyval).

(** Truth value testing, as an [if x:] does it. *)
Class Truthy (A : Type) := truthy : A → bool.
Global Hint Mode Truthy ! : typeclass_instances.

Global Instance truthy_string : Truthy string :=
  λ s, match s with EmptyString => false | String _ _ => true end.
Global Instance truthy_list {A} : Truthy (list A) :=
  λ l, match l with [] => false | _ :: _ => true end.
Global Instance truthy_dict : Truthy payload :=
  λ d, negb (bool_decide (d = ∅)).
(** An [Optional[A]] parameter: [None] is falsy, a value is tested as such. *)
Global Instance truthy_option `{Truthy A} : Truthy (option A) :=
  λ x, match x with Some v => truthy v | None => false end.

(** A typed parameter seen as the value the source stores under a key. *)
Class ToVal (A : Type) := to_val : A → pyval.
Global Hint Mode ToVal ! : typeclass_instances.

Global Instance to_val_bool : ToVal bool := VBool.
Global Instance to_val_Z : ToVal Z := VInt.
Global Instance to_val_float : ToVal PrimFloat.float := VFloat.
Global Instance to_val_string : ToVal string := VStr.
Global Instance to_val_option `{ToVal A} : ToVal (option A) :=
  λ x, match x with Some v => to_val v | None => VNone end.

(** [x is not None] *)
Definition is_not_None {A} (x : option A) : bool :=
  match x with Some _ => true | None => false end.

(** ** Strings

    A [string] is the sequence of the bytes of the text. The only character
    the source strips or splits on is the slash, a single byte that occurs in
    no multi-byte sequence of UTF-8, so bytes and code points agree here. *)

Definition slash : ascii := "/"%char.

(** [c in chars] *)
Fixpoint char_in (c : ascii) (chars : string) : bool :=
  match chars with
  | EmptyString => false
  | String c' rest => if decide (c = c') then true else char_in c rest
  end.

(** [s.lstrip(chars)] *)
Fixpoint lstrip (chars : string) (s : string) : string :=
  match s with
  | EmptyString => EmptyString
  | String c rest => if char_in c chars then lstrip chars rest else s
  end.

(** [s.rstrip(chars)] *)
Fixpoint rstrip (chars : string) (s : string) : string :=
  match s with
  | EmptyString => EmptyString
  | String c rest =>
      match rstrip chars rest with
      | EmptyString => if char_in c chars then EmptyString else String c EmptyString
      | kept => String c kept
      end
  end.

(** [s.split(sep)] for a separator of one character: never an empty list. *)
Fixpoint str_split (sep : ascii) (s : string) : list string :=
  match s with
  | EmptyString => [EmptyString]
  | String c rest =>
      if decide (c = sep) then EmptyString :: str_split sep rest
      else match str_split sep rest with
           | piece :: pieces => String c piece :: pieces
           | [] => [String c EmptyString]
           end
  end.

(** [l[-1]] on the pieces of a split. *)
Definition last_piece (pieces : list string) : string :=
  default EmptyString (last pieces).

(** [c] occurs in [s]. *)
Fixpoint occurs (c : ascii) (s : string) : bool :=
  match s with
  | EmptyString => false
  | String c' rest => if decide (c' = c) then true else occurs c rest
  end.

(** [s.startswith(c)] and [s.endswith(c)] for one character. *)
Definition starts_with (c : ascii) (s : string) : bool :=
  match s with String c' _ => bool_decide (c' = c) | EmptyString => false end.

Fixpoint ends_with (c : ascii) (s : string) : bool :=
  match s with
  | EmptyString => false
  | String c' EmptyString => bool_decide (c' = c)
  | String _ rest => ends_with c rest
  end.

(** [enumerate(l, start)] *)
Fixpoint enumerate_from {A} (start : nat) (l : list A) : list (nat * A) :=
  match l with
  | [] => []
  | x :: rest => (start, x) :: enumerate_from (S start) rest
  end.

Definition enumerate {A} (l : list A) : list (nat * A) := enumerate_from 0 l.

(** [if c: data[key] = value] *)
Definition assign (c : bool) (key : string) (value : pyval) (data : payload) : payload :=
  if c then <[key := value]> data else data.

(** ** Exceptions and the call log *)

(** What an operation can raise. [CanvasAPIError] is the class of the source;
    the other two are the built-in exceptions that escape [_request]. *)
Inductive exn : Type :=
  | CanvasAPIError (status_code : Z) (message : pyval)
  | ValueError (msg : string)
  | AttributeError.

Inductive result (A : Type) : Type :=
  | Return (a : A)
  | Raise (e : exn).
Global Arguments Return {A} a.
Global Arguments Raise {A} e.

Global Instance result_ret : MRet result := λ A a, Return a.
Global Instance result_bind : MBind result :=
  λ A B k r, match r with Return a => k a | Raise e => Raise e end.

(** The four calls the source makes on its session. *)
Inductive verb : Type := GET | POST | PUT | DELETE.

Global Instance verb_eq_dec : EqDecision verb.
Proof. solve_decision. Defined.

(** One call on the session, as it leaves the client: [session.get(url,
    params=...)], [session.post(url, params=..., data=...)] and so on, with
    the [Authorization] header the session carries. *)
Record wire_request : Type := WireRequest {
  req_verb : verb;
  req_url : string;
  req_params : option payload;
  req_data : option payload;
  req_authorization : string;
}.

(** [response.json()]: the decoded body, or the text of the decoding error. *)
Inductive json_result : Type :=
  | Decoded (body : pyval)
  | Undecodable (error_text : string).

(** A [requests.Response]. [http_error_text] is the text of the [HTTPError]
    that [raise_for_status] builds for this response. *)
Record response : Type := Response {
  resp_status_code : Z;
  resp_content : string;
  resp_json : json_result;
  resp_http_error_text : string;
}.

(** A [requests.exceptions.RequestException]: [str(e)] and [e.response]. *)
Record request_exception : Type := RequestException {
  exc_str : string;
  exc_response : option response;
}.

(** What a call on the session comes back with. *)
Inductive outcome : Type :=
  | Responded (r : response)
  | Failed (e : request_exception).

(** The session and the remote service behind it: the answer to a call may
    depend on the calls made before it. *)
Definition session : Type := list wire_request → wire_request → outcome.

(** An operation runs from the log of the calls made so far and gives a
    result and the log extended by its own calls. *)
Definition M (A : Type) : Type := list wire_request → result A * list wire_request.

Global Instance M_ret : MRet M := λ A a log, (Return a, log).
Global Instance M_bind : MBind M :=
  λ A B k m log,
    match m log with
    | (Return a, log') => k a log'
    | (Raise e, log') => (Raise e, log')
    end.

(** A step that touches no network. *)
Definition lift {A} (r : result A) : M A := λ log, (r, log).

(** The calls an operation makes when it starts from [log]. *)
Definition calls {A} (m : M A) (log : list wire_request) : list wire_request :=
  drop (length log) (m log).2.

(** [d.get(key, default)]; only a dictionary has the method. *)
Definition py_get (d : pyval) (key : string) (default_value : pyval) : result pyval :=
  match d with
  | VDict fields => Return (default default_value (fields !! key))
  | _ => Raise AttributeError
  end.

(** [response.raise_for_status()] of the requests library: an [HTTPError]
    carrying the response for a status in the 4xx and 5xx ranges. *)
Definition raise_for_status (r : response) : option request_exception :=
  if bool_decide (400 ≤ resp_status_code r < 600)
  then Some (RequestException (resp_http_error_text r) (Some r))
  else None.

Module Client.

(** ** [class CanvasClient] *)

Record CanvasClient : Type := {
  api_url : string;
  api_token : string;
  client_session : session;
}.

(** [CanvasClient.__init__] *)
Definition init (api_url api_token : string) (s : session) : CanvasClient :=
  {| api_url := rstrip "/" api_url; api_token := api_token; client_session := s |}.

(** The message of the [except] block of [_request], for a response whose
    body decoded to [error_data]; [e_str] is [str(e)]. *)
Definition error_message (error_data : pyval) (e_str : string) : result pyval :=
  errors ← py_get error_data "errors" VNone;
  match errors with
  | VDict fields => Return (default (VStr e_str) (fields !! "message"))
  | VList (first :: _) => Return first
  | _ => py_get error_data "message" (VStr e_str)
  end.

(** The [except requests.exceptions.RequestException as e] block: what it
    raises. *)
Definition on_request_exception (e : request_exception) : exn :=
  match exc_response e with
  | Some r =>
      match resp_json r with
      | Decoded error_data =>
          match error_message error_data (exc_str e) with
          | Return msg => CanvasAPIError (resp_status_code r) msg
          | Raise other => other
          end
      | Undecodable _ => CanvasAPIError (resp_status_code r) (VStr (exc_str e))
      end
  | None => CanvasAPIError 500 (VStr (exc_str e))
  end.

(** One call on the session followed by the rest of the [try] block. A body
    that does not decode on the success path raises the library's
    [JSONDecodeError], a [RequestException] without a response. *)
Definition perform (self : CanvasClient) (req : wire_request) : M pyval :=
  λ log,
    let log' := log ++ [req] in
    match client_session self log req with
    | Failed e => (Raise (on_request_exception e), log')
    | Responded r =>
        match raise_for_status r with
        | Some e => (Raise (on_request_exception e), log')
        | None =>
            if truthy (resp_content r)
            then match resp_json r with
                 | Decoded body => (Return body, log')
                 | Undecodable error_text =>
                     (Raise (on_request_exception (RequestException error_text None)), log')
                 end
            else (Return (VDict ∅), log')
        end
    end.

(** [CanvasClient._request] *)
Definition _request (self : CanvasClient) (method endpoint : string)
    (params data : option payload) : M pyval :=
  let url := api_url self +:+ "/" +:+ lstrip "/" endpoint in
  let authorization := "Bearer " +:+ api_token self in
  if decide (method = "GET") then
    perform self (WireRequest GET url params None authorization)
  else if decide (method = "POST") then
    perform self (WireRequest POST url params data authorization)
  else if decide (method = "PUT") then
    perform self (WireRequest PUT url params data authorization)
  else if decide (method = "DELETE") then
    perform self (WireRequest DELETE url params None authorization)
  else
    lift (Raise (ValueError ("Unsupported HTTP method: " +:+ method))).

(** ** Courses *)

Definition get_courses (self : CanvasClient) (params : option payload) : M pyval :=
  _request self "GET" "courses" params None.

Definition get_course (self : CanvasClient) (course_id : string) : M pyval :=
  _request self "GET" ("courses/" +:+ course_id) None None.

Definition create_course_data (name : string)
    (course_code sis_course_id : option string) : payload :=
  let data : payload := {[ "course[name]" := VStr name ]} in
  let data :=
    assign (truthy course_code) "course[course_code]"
      (to_val course_code) data in
  let data :=
    assign (truthy sis_course_id) "course[sis_course_id]"
      (to_val sis_course_id) data in
  data.

Definition create_course (self : CanvasClient) (account_id name : string)
    (course_code sis_course_id : option string) : M pyval :=
  _request self "POST" ("accounts/" +:+ account_id +:+ "/courses") None
    (Some (create_course_data name course_code sis_course_id)).

(** ** Sections *)

Definition list_sections (self : CanvasClient) (course_id : string) : M pyval :=
  _request self "GET" ("courses/" +:+ course_id +:+ "/sections") None None.

Definition create_section_data (section_name : string)
    (sis_section_id : option string) : payload :=
  let data : payload := {[ "course_section[name]" := VStr section_name ]} in
  let data :=
    assign (truthy sis_section_id) "course_section[sis_section_id]"
      (to_val sis_section_id) data in
  data.

Definition create_section (self : CanvasClient) (course_id section_name : string)
    (sis_section_id : option string) : M pyval :=
  _request self "POST" ("courses/" +:+ course_id +:+ "/sections") None
    (Some (create_section_data section_name sis_section_id)).

Definition get_section (self : CanvasClient) (section_id : string) : M pyval :=
  _request self "GET" ("sections/" +:+ section_id) None None.

Definition update_section_data (section_name : option string) : payload :=
  let data : payload := ∅ in
  let data :=
    assign (truthy section_name) "course_section[name]"
      (to_val section_name) data in
  data.

Definition update_section (self : CanvasClient) (section_id : string)
    (section_name : option string) : M pyval :=
  _request self "PUT" ("sections/" +:+ section_id) None
    (Some (update_section_data section_name)).

Definition delete_section (self : CanvasClient) (section_id : string) : M pyval :=
  _request self "DELETE" ("sections/" +:+ section_id) None None.

Definition cross_list_section (self : CanvasClient)
    (section_id new_course_id : string) : M pyval :=
  _request self "POST" ("sections/" +:+ section_id +:+ "/crosslist/" +:+ new_course_id)
    None None.

(** ** Modules *)

Definition list_modules (self : CanvasClient) (course_id : string) : M pyval :=
  _request self "GET" ("courses/" +:+ course_id +:+ "/modules") None None.

Definition get_module (self : CanvasClient) (course_id module_id : string) : M pyval :=
  _request self "GET" ("courses/" +:+ course_id +:+ "/modules/" +:+ module_id) None None.

(** The key [f"module[prerequisite_module_ids][{i}]"]. *)
Definition prerequisite_key (i : nat) : string :=
  "module[prerequisite_module_ids][" +:+ pretty i +:+ "]".

(** [for i, module_id in enumerate(prerequisite_module_ids): data[...] = module_id] *)
Definition set_prerequisites (prerequisite_module_ids : list string)
    (data : payload) : payload :=
  foldl (λ data '(i, module_id), <[prerequisite_key i := VStr module_id]> data)
    data (enumerate prerequisite_module_ids).

Definition create_module_data (name : string) (position : option Z)
    (unlock_at : option string) (require_sequential_progress : option bool)
    (prerequisite_module_ids : option (list string))
    (publish_final_grade : option bool) : payload :=
  let data : payload := {[ "module[name]" := VStr name ]} in
  let data :=
    assign (is_not_None position) "module[position]"
      (to_val position) data in
  let data :=
    assign (is_not_None unlock_at) "module[unlock_at]"
      (to_val unlock_at) data in
  let data :=
    assign (is_not_None require_sequential_progress)
      "module[require_sequential_progress]" (to_val require_sequential_progress) data in
  let data :=
    if truthy prerequisite_module_ids
    then set_prerequisites (default [] prerequisite_module_ids) data else data in
  let data :=
    assign (is_not_None publish_final_grade) "module[publish_final_grade]"
      (to_val publish_final_grade) data in
  data.

Definition create_module (self : CanvasClient) (course_id name : string)
    (position : option Z) (unlock_at : option string)
    (require_sequential_progress : option bool)
    (prerequisite_module_ids : option (list string))
    (publish_final_grade : option bool) : M pyval :=
  _request self "POST" ("courses/" +:+ course_id +:+ "/modules") None
    (Some (create_module_data name position unlock_at require_sequential_progress
             prerequisite_module_ids publish_final_grade)).

Definition update_module_data (name : option string) (position : option Z)
    (unlock_at : option string) (require_sequential_progress : option bool)
    (prerequisite_module_ids : option (list string))
    (publish_final_grade : option bool) : payload :=
  let data : payload := ∅ in
  let data := assign (is_not_None name) "module[name]" (to_val name) data in
  let data :=
    assign (is_not_None position) "module[position]"
      (to_val position) data in
  let data :=
    assign (is_not_None unlock_at) "module[unlock_at]"
      (to_val unlock_at) data in
  let data :=
    assign (is_not_None require_sequential_progress)
      "module[require_sequential_progress]" (to_val require_sequential_progress) data in
  let data :=
    match prerequisite_module_ids with
    | Some ids =>
        if negb (truthy ids)
        then <["module[prerequisite_module_ids][]" := VStr ""]> data
        else set_prerequisites ids data
    | None => data
    end in
  let data :=
    assign (is_not_None publish_final_grade) "module[publish_final_grade]"
      (to_val publish_final_grade) data in
  data.

Definition update_module (self : CanvasClient) (course_id module_id : string)
    (name : option string) (position : option Z) (unlock_at : option string)
    (require_sequential_progress : option bool)
    (prerequisite_module_ids : option (list string))
    (publish_final_grade : option bool) : M pyval :=
  let data :=
    update_module_data name position unlock_at require_sequential_progress
      prerequisite_module_ids publish_final_grade in
  (* [for i, module_id in enumerate(prerequisite_module_ids)] binds the
     parameter [module_id] anew at each element: after the loop it is the
     last element, and the path below is built from it. *)
  let module_id := default module_id (prerequisite_module_ids ≫= last) in
  _request self "PUT" ("courses/" +:+ course_id +:+ "/modules/" +:+ module_id) None
    (Some data).

Definition delete_module (self : CanvasClient) (course_id module_id : string) : M pyval :=
  _request self "DELETE" ("courses/" +:+ course_id +:+ "/modules/" +:+ module_id)
    None None.

(** ** Module items *)

Definition list_module_items (self : CanvasClient)
    (course_id module_id : string) : M pyval :=
  _request self "GET"
    ("courses/" +:+ course_id +:+ "/modules/" +:+ module_id +:+ "/items") None None.

Definition get_module_item (self : CanvasClient)
    (course_id module_id item_id : string) : M pyval :=
  _request self "GET"
    ("courses/" +:+ course_id +:+ "/modules/" +:+ module_id +:+ "/items/" +:+ item_id)
    None None.

(** The [if completion_requirement:] block, the same in [create_module_item]
    and [update_module_item]. *)
Definition set_completion_requirement (completion_requirement : option payload)
    (data : payload) : payload :=
  match completion_requirement with
  | Some requirement =>
      if truthy requirement then
        let data :=
          <["module_item[completion_requirement][type]" :=
              default (VStr "") (requirement !! "type")]> data in
        match requirement !! "min_score" with
        | Some min_score =>
            <["module_item[completion_requirement][min_score]" := min_score]> data
        | None => data
        end
      else data
  | None => data
  end.

(** [title] is annotated [str]; [add_page_to_module] passes the title of a
    fetched page, a decoded JSON value, hence a value here. *)
Definition create_module_item_data (title : pyval) (type content_id : string)
    (position indent : option Z) (page_url external_url : option string)
    (new_tab : option bool) (completion_requirement : option payload) : payload :=
  let data : payload :=
    <["module_item[type]" := VStr type]> {[ "module_item[title]" := title ]} in
  let data :=
    assign (negb (bool_decide (type = "ExternalUrl"))) "module_item[content_id]"
      (VStr content_id) data in
  let data :=
    assign (is_not_None position) "module_item[position]"
      (to_val position) data in
  let data :=
    assign (is_not_None indent) "module_item[indent]"
      (to_val indent) data in
  let data :=
    assign (is_not_None page_url && bool_decide (type = "Page"))
      "module_item[page_url]" (to_val page_url) data in
  let data :=
    assign (is_not_None external_url && bool_decide (type = "ExternalUrl"))
      "module_item[external_url]" (to_val external_url) data in
  let data :=
    assign (is_not_None new_tab) "module_item[new_tab]"
      (to_val new_tab) data in
  set_completion_requirement completion_requirement data.

Definition create_module_item (self : CanvasClient) (course_id module_id : string)
    (title : pyval) (type content_id : string)
    (position indent : option Z) (page_url external_url : option string)
    (new_tab : option bool) (completion_requirement : option payload) : M pyval :=
  _request self "POST"
    ("courses/" +:+ course_id +:+ "/modules/" +:+ module_id +:+ "/items") None
    (Some (create_module_item_data title type content_id position indent
             page_url external_url new_tab completion_requirement)).

Definition update_module_item_data (title : option string)
    (position indent : option Z) (external_url : option string)
    (new_tab : option bool) (completion_requirement : option payload) : payload :=
  let data : payload := ∅ in
  let data :=
    assign (is_not_None title) "module_item[title]"
      (to_val title) data in
  let data :=
    assign (is_not_None position) "module_item[position]"
      (to_val position) data in
  let data :=
    assign (is_not_None indent) "module_item[indent]"
      (to_val indent) data in
  let data :=
    assign (is_not_None external_url) "module_item[external_url]"
      (to_val external_url) data in
  let data :=
    assign (is_not_None new_tab) "module_item[new_tab]"
      (to_val new_tab) data in
  set_completion_requirement completion_requirement data.

Definition update_module_item (self : CanvasClient)
    (course_id module_id item_id : string) (title : option string)
    (position indent : option Z) (external_url : option string)
    (new_tab : option bool) (completion_requirement : option payload) : M pyval :=
  _request self "PUT"
    ("courses/" +:+ course_id +:+ "/modules/" +:+ module_id +:+ "/items/" +:+ item_id)
    None
    (Some (update_module_item_data title position indent external_url new_tab
             completion_requirement)).

Definition delete_module_item (self : CanvasClient)
    (course_id module_id item_id : string) : M pyval :=
  _request self "DELETE"
    ("courses/" +:+ course_id +:+ "/modules/" +:+ module_id +:+ "/items/" +:+ item_id)
    None None.

(** ** Pages *)

Definition list_pages_params (search_term : option string) : payload :=
  let params : payload := ∅ in
  let params :=
    assign (truthy search_term) "search_term"
      (to_val search_term) params in
  params.

Definition list_pages (self : CanvasClient) (course_id : string)
    (search_term : option string) : M pyval :=
  _request self "GET" ("courses/" +:+ course_id +:+ "/pages")
    (Some (list_pages_params search_term)) None.

Definition get_page (self : CanvasClient) (course_id page_url : string) : M pyval :=
  _request self "GET" ("courses/" +:+ course_id +:+ "/pages/" +:+ page_url) None None.

Definition create_page_data (title body : string) (editing_roles : option string)
    (published front_page : option bool) : payload :=
  let data : payload :=
    <["wiki_page[body]" := VStr body]> {[ "wiki_page[title]" := VStr title ]} in
  let data :=
    assign (is_not_None editing_roles) "wiki_page[editing_roles]"
      (to_val editing_roles) data in
  let data :=
    assign (is_not_None published) "wiki_page[published]"
      (to_val published) data in
  let data :=
    assign (is_not_None front_page) "wiki_page[front_page]"
      (to_val front_page) data in
  data.

Definition create_page (self : CanvasClient) (course_id title body : string)
    (editing_roles : option string) (published front_page : option bool) : M pyval :=
  _request self "POST" ("courses/" +:+ course_id +:+ "/pages") None
    (Some (create_page_data title body editing_roles published front_page)).

Definition update_page_data (title body editing_roles : option string)
    (published front_page : option bool) : payload :=
  let data : payload := ∅ in
  let data :=
    assign (is_not_None title) "wiki_page[title]"
      (to_val title) data in
  let data := assign (is_not_None body) "wiki_page[body]" (to_val body) data in
  let data :=
    assign (is_not_None editing_roles) "wiki_page[editing_roles]"
      (to_val editing_roles) data in
  let data :=
    assign (is_not_None published) "wiki_page[published]"
      (to_val published) data in
  let data :=
    assign (is_not_None front_page) "wiki_page[front_page]"
      (to_val front_page) data in
  data.

Definition update_page (self : CanvasClient) (course_id page_url : string)
    (title body editing_roles : option string)
    (published front_page : option bool) : M pyval :=
  _request self "PUT" ("courses/" +:+ course_id +:+ "/pages/" +:+ page_url) None
    (Some (update_page_data title body editing_roles published front_page)).

Definition delete_page (self : CanvasClient) (course_id page_url : string) : M pyval :=
  _request self "DELETE" ("courses/" +:+ course_id +:+ "/pages/" +:+ page_url) None None.

Section AddPage.

(** The built-in [str] on a decoded JSON value. *)
Variable py_str : pyval → string.

(** [title or page.get("title", "")] *)
Definition title_or_page_title (title : option string) (page : pyval) : result pyval :=
  if truthy title then Return (to_val title) else py_get page "title" (VStr "").

Definition add_page_to_module (self : CanvasClient)
    (course_id module_id page_url : string) (title : option string)
    (position indent : option Z) (new_tab : option bool) : M pyval :=
  page ← get_page self course_id page_url;
  item_title ← lift (title_or_page_title title page);
  page_id ← lift (py_get page "id" (VStr ""));
  create_module_item self course_id module_id item_title "Page" (py_str page_id)
    position indent (Some page_url) None new_tab None.

End AddPage.

End Client.

Module Server.

(** ** The tools of [server.py]

    [canvas_client] is the client the module of the source builds once. An
    optional parameter of a tool has the default [None], the [published] of
    [create_page_and_add_to_module] apart: a parameter left out is the
    parameter given as [None]. *)

Section Tools.

Variable py_str : pyval → string.
Variable canvas_client : Client.CanvasClient.

(** The tools that pass their parameters on to the operation of the client
    with their name. *)

Definition get_courses : M pyval := Client.get_courses canvas_client None.


Definition create_section (course_id section_name : string)
    (sis_section_id : option string) : M pyval :=
  Client.create_section canvas_client course_id section_name sis_section_id.


Definition update_section (section_id : string)
    (section_name : option string) : M pyval :=
  Client.update_section canvas_client section_id section_name.



Definition create_course (account_id name : string)
    (course_code sis_course_id : option string) : M pyval :=
  Client.create_course canvas_client account_id name course_code sis_course_id.





Definition create_module (course_id name : string) (position : option Z)
    (unlock_at : option string) (require_sequential_progress : option bool)
    (prerequisite_module_ids : option (list string))
    (publish_final_grade : option bool) : M pyval :=
  Client.create_module canvas_client course_id name position unlock_at
    require_sequential_progress prerequisite_module_ids publish_final_grade.

Definition update_module (course_id module_id : string) (name : option string)
    (position : option Z) (unlock_at : option string)
    (require_sequential_progress : option bool)
    (prerequisite_module_ids : option (list string))
    (publish_final_grade : option bool) : M pyval :=
  Client.update_module canvas_client course_id module_id name position unlock_at
    require_sequential_progress prerequisite_module_ids publish_final_grade.



Definition list_pages (course_id : string) (search_term : option string) : M pyval :=
  Client.list_pages canvas_client course_id search_term.


Definition create_page (course_id title body : string)
    (editing_roles : option string) (published front_page : option bool) : M pyval :=
  Client.create_page canvas_client course_id title body editing_roles published
    front_page.

Definition update_page (course_id page_url : string)
    (title body editing_roles : option string)
    (published front_page : option bool) : M pyval :=
  Client.update_page canvas_client course_id page_url title body editing_roles
    published front_page.


Definition add_page_to_module (course_id module_id page_url : string)
    (title : option string) (position indent : option Z)
    (new_tab : option bool) : M pyval :=
  Client.add_page_to_module py_str canvas_client course_id module_id page_url title
    position indent new_tab.

(** The default of [published] in the signature of
    [create_page_and_add_to_module], [Optional[bool] = True]: what the tool
    gets when the parameter is left out. *)
Definition published_default : option bool := Some true.

(** The dictionary the two module-item tools build from
    [completion_requirement_type] and [min_score]. *)
Definition completion_requirement_of (completion_requirement_type : option string)
    (min_score : option PrimFloat.float) : option payload :=
  if truthy completion_requirement_type then
    let completion_requirement : payload :=
      {[ "type" := to_val completion_requirement_type ]} in
    if bool_decide (completion_requirement_type = Some "min_score")
       && is_not_None min_score
    then Some (<["min_score" := to_val min_score]> completion_requirement)
    else Some completion_requirement
  else None.

(** [content_id or ""] *)
Definition content_id_or_empty (content_id : option string) : string :=
  if truthy content_id then default "" content_id else "".

Definition create_module_item (course_id module_id title type : string)
    (content_id : option string) (position indent : option Z)
    (page_url external_url : option string) (new_tab : option bool)
    (completion_requirement_type : option string)
    (min_score : option PrimFloat.float) : M pyval :=
  Client.create_module_item canvas_client course_id module_id (VStr title) type
    (content_id_or_empty content_id) position indent page_url external_url new_tab
    (completion_requirement_of completion_requirement_type min_score).

Definition update_module_item (course_id module_id item_id : string)
    (title : option string) (position indent : option Z)
    (external_url : option string) (new_tab : option bool)
    (completion_requirement_type : option string)
    (min_score : option PrimFloat.float) : M pyval :=
  Client.update_module_item canvas_client course_id module_id item_id title
    position indent external_url new_tab
    (completion_requirement_of completion_requirement_type min_score).

(** [page.get("url", "").split("/")[-1]]: only a dictionary has [get], only a
    string has [split]. *)
Definition page_slug (page : pyval) : result string :=
  url ← py_get page "url" (VStr "");
  match url with
  | VStr u => Return (last_piece (str_split slash u))
  | _ => Raise AttributeError
  end.

Definition create_page_and_add_to_module (course_id module_id title body : string)
    (editing_roles : option string) (published front_page : option bool)
    (module_item_position module_item_indent : option Z)
    (new_tab : option bool) : M pyval :=
  page ← Client.create_page canvas_client course_id title body editing_roles
            published front_page;
  page_url ← lift (page_slug page);
  Client.add_page_to_module py_str canvas_client course_id module_id page_url
    (Some title) module_item_position module_item_indent new_tab.

End Tools.

End Server.

Module Config.

(** ** [config.py] *)

Record CanvasConfig : Type := {
  api_url : string;
  api_token : string;
}.

(** [CanvasConfig()]: each field from its [default_factory],
    [os.environ.get(name, "")]. *)
Definition new (environ : gmap string string) : CanvasConfig :=
  {| api_url := default "" (environ !! "CANVAS_API_URL");
     api_token := default "" (environ !! "CANVAS_API_TOKEN") |}.

(** [a and b] on two strings. *)
Definition py_and (a b : string) : string := if truthy a then b else a.

(** [CanvasConfig.is_configured] *)
Definition is_configured (self : CanvasConfig) : bool :=
  truthy (py_and (api_url self) (api_token self)).

(** [load_dotenv(env_path)] of python-dotenv, called with its default
    [override=False]: the variables of the file that the environment does not
    have yet are added to it. [file] is the parsed content. *)
Definition load_dotenv (file environ : gmap string string) : gmap string string :=
  environ ∪ file.

Section LoadConfig.

(** The three locations of [env_locations], in the order of the source, and
    the files that exist, with their content. *)
Variable path : Type.
Variable cwd_env home_env project_env : path.
Variable files : path → option (gmap string string).

(** [for env_path in env_locations: if env_path.exists(): load_dotenv(env_path); break] *)
Fixpoint load_first (env_locations : list path)
    (environ : gmap string string) : gmap string string :=
  match env_locations with
  | [] => environ
  | env_path :: rest =>
      match files env_path with
      | Some file => load_dotenv file environ
      | None => load_first rest environ
      end
  end.

(** [load_config], from the environment it finds (the one the
    [load_dotenv()] of the module's import has left): the configuration and
    the environment it leaves. *)
Definition load_config (environ : gmap string string)
    : CanvasConfig * gmap string string :=
  let environ := load_first [cwd_env; home_env; project_env] environ in
  (new environ, environ).

End LoadConfig.

End Config.

Module Main.

(** ** [__main__.py]

    Logging is left out: it decides nothing. *)

(** The [choices] of [--mode]. *)
Inductive mode : Type := dev | install.

Definition mode_name (m : mode) : string :=
  match m with dev => "dev" | install => "install" end.

(** What [subprocess.run(..., check=True)] comes to. *)
Inductive run_outcome : Type :=
  | Completed
  | CalledProcessError
  | FileNotFoundError.

(** How [main] ends: by returning, or through [sys.exit]. *)
Inductive termination : Type :=
  | Returns
  | Exit (status : Z).

Section Main.

Variable path : Type.
Variable cwd_env home_env project_env : path.
Variable files : path → option (gmap string string).
(** [str(server_file.resolve())] *)
Variable server_path : string.
(** The operating system behind [subprocess.run]. *)
Variable subprocess_run : list string → run_outcome.

(** [main], from the parsed [--mode] and the environment: how it ends and
    the commands it ran. *)
Definition main (args_mode : mode) (environ : gmap string string)
    : termination * list (list string) :=
  let config :=
    (Config.load_config path cwd_env home_env project_env files environ).1 in
  if negb (Config.is_configured config) then (Exit 1, [])
  else
    let command :=
      match args_mode with
      | dev => ["mcp"; "dev"; server_path]
      | install => ["mcp"; "install"; server_path]
      end in
    match subprocess_run command with
    | Completed => (Returns, [command])
    | CalledProcessError => (Exit 1, [command])
    | FileNotFoundError => (Exit 1, [command])
    end.

End Main.

End Main.

(** ** The specification's side of the comparisons, and sample data *)

(** [k] slashes. *)
Fixpoint slashes (k : nat) : string :=
  match k with
  | O => EmptyString
  | S k' => String slash (slashes k')
  end.

(** The method names [_request] accepts. *)
Definition supported_methods : list string := ["GET"; "POST"; "PUT"; "DELETE"].

(** The method name that selects each call of the session. *)
Definition verb_name (v : verb) : string :=
  match v with GET => "GET" | POST => "POST" | PUT => "PUT" | DELETE => "DELETE" end.

(** The call [_request] makes for a supported method: [get] and [delete] are
    called without [data]. *)
Definition wire (self : Client.CanvasClient) (v : verb) (endpoint : string)
    (params data : option payload) : wire_request :=
  WireRequest v (Client.api_url self +:+ "/" +:+ lstrip "/" endpoint) params
    match v with POST | PUT => data | GET | DELETE => None end
    ("Bearer " +:+ Client.api_token self).


(** An operation that makes one call, a [GET], whatever the log and the
    answer. *)
Definition one_get {A} (m : M A) : Prop :=
  ∀ log, ∃ req, (m log).2 = log ++ [req] ∧ req_verb req = GET.

(** An operation that makes one call, the given one, whatever the log and
    the answer. *)
Definition one_call {A} (self : Client.CanvasClient) (v : verb) (path : string)
    (params data : option payload) (m : M A) : Prop :=
  ∀ log,
    (m log).2
    = log ++ [WireRequest v (Client.api_url self +:+ "/" +:+ path) params data
                ("Bearer " +:+ Client.api_token self)].

(** A value that is no mapping. *)
Definition not_a_mapping (v : pyval) : Prop :=
  match v with VDict _ => False | _ => True end.

(** A parameter guarded by [is not None]: its key is absent when the
    parameter is not given and bound to the value whenever one is given. *)
Definition sent_iff_set {A} `{ToVal A} (key : string)
    (build : option A → payload) : Prop :=
  build None !! key = None
  ∧ ∀ v, build (Some v) !! key = Some (to_val v).

(** A parameter guarded by its truth value: its key is absent when the
    parameter is not given or given empty, and bound to the value otherwise. *)
Definition sent_iff_truthy {A} `{ToVal A} `{Truthy A} (key : string)
    (build : option A → payload) : Prop :=
  build None !! key = None
  ∧ ∀ v, build (Some v) !! key = if truthy v then Some (to_val v) else None.

(** No key of the prerequisite field: neither the bare key, nor the [[]]
    key, nor an indexed one. *)
Definition prerequisites_absent (d : payload) : Prop :=
  d !! "module[prerequisite_module_ids]" = None
  ∧ d !! "module[prerequisite_module_ids][]" = None
  ∧ ∀ i, d !! Client.prerequisite_key i = None.

(** The completion requirement, a mapping guarded by its truth value: no key
    of it when it is not given or given empty; otherwise its [type], the
    empty string when it has none, and its [min_score] when it has one. *)
Definition completion_sent_iff_truthy (build : option payload → payload) : Prop :=
  let absent (d : payload) :=
    d !! "module_item[completion_requirement][type]" = None
    ∧ d !! "module_item[completion_requirement][min_score]" = None in
  absent (build None)
  ∧ absent (build (Some ∅))
  ∧ ∀ requirement : payload, requirement ≠ ∅ →
      build (Some requirement) !! "module_item[completion_requirement][type]"
      = Some (default (VStr "") (requirement !! "type"))
      ∧ build (Some requirement) !! "module_item[completion_requirement][min_score]"
        = requirement !! "min_score".



Module Samples.

(** A page as the service returns it. *)
Definition intro_page : pyval :=
  VDict (<["url" := VStr "https://canvas.example/courses/1/pages/intro"]>
         (<["title" := VStr "Intro"]> {[ "id" := VInt 7 ]})).

(** A service that answers every call with [intro_page]. *)
Definition ok_session : session :=
  λ _ _, Responded (Response 200 "{...}" (Decoded intro_page) "").

Definition ok_client : Client.CanvasClient :=
  Client.init "https://canvas.example/api/v1/" "token" ok_session.





(** A sample of the built-in [str]: exact on strings and integers. *)
Definition sample_str (v : pyval) : string :=
  match v with
  | VStr s => s
  | VInt z => pretty z
  | _ => "?"
  end.

End Samples.

(** ** Proof steps *)

(** The lemmas that peel the assignments off a payload, down to the key
    looked up; they are added where they are proved. *)
Create Rewrite HintDb payload.

Ltac payload_lookup :=
  repeat progress
    (autorewrite with payload;
     cbn [is_not_None truthy truthy_option truthy_string truthy_list negb andb
          to_val to_val_option to_val_string to_val_Z to_val_bool fmap option_fmap
          option_map default]).

(** * Properties *)

(** ** Strings *)

Lemma append_empty_r s : s +:+ "" = s.
Proof.
  induction s as [|c rest IH]; first done.
  change (String c (rest +:+ "") = String c rest). by rewrite IH.
Qed.

Lemma char_in_slash c : char_in c "/" = bool_decide (c = slash).
Proof. simpl. unfold slash. by destruct (decide _); case_bool_decide. Qed.

Lemma lstrip_starts s : starts_with slash (lstrip "/" s) = false.
Proof.
  induction s as [|c rest IH]; first done.
  cbn [lstrip]. rewrite char_in_slash. case_bool_decide as Hc; first done.
  cbn. by rewrite bool_decide_eq_false_2.
Qed.

Lemma lstrip_slashes k s : lstrip "/" (slashes k +:+ s) = lstrip "/" s.
Proof. induction k as [|k IH]; first done. cbn. exact IH. Qed.

Lemma lstrip_prefix s : ∃ k, s = slashes k +:+ lstrip "/" s.
Proof.
  induction s as [|c rest [k IH]]; first by exists 0%nat.
  cbn [lstrip]. rewrite char_in_slash. case_bool_decide as Hc.
  - exists (S k). subst c. by rewrite IH at 1.
  - by exists 0%nat.
Qed.

Lemma rstrip_ends s : ends_with slash (rstrip "/" s) = false.
Proof.
  induction s as [|c rest IH]; first done.
  cbn [rstrip]. destruct (rstrip "/" rest) as [|c' kept] eqn:Hrest.
  - rewrite char_in_slash. case_bool_decide as Hc; first done.
    cbn. by rewrite bool_decide_eq_false_2.
  - exact IH.
Qed.

Lemma rstrip_one_slash s : rstrip "/" (s +:+ "/") = rstrip "/" s.
Proof.
  induction s as [|c rest IH]; first done.
  change (rstrip "/" (String c (rest +:+ "/")) = rstrip "/" (String c rest)).
  cbn [rstrip]. by rewrite IH.
Qed.

Lemma append_slashes_S s k : s +:+ slashes (S k) = (s +:+ "/") +:+ slashes k.
Proof.
  induction s as [|c rest IH]; first done.
  change (String c (rest +:+ slashes (S k)) = String c ((rest +:+ "/") +:+ slashes k)).
  by rewrite IH.
Qed.

Lemma rstrip_slashes k s : rstrip "/" (s +:+ slashes k) = rstrip "/" s.
Proof.
  revert s. induction k as [|k IH]; intros s.
  - cbn. by rewrite append_empty_r.
  - by rewrite append_slashes_S, IH, rstrip_one_slash.
Qed.

Lemma rstrip_suffix s : ∃ k, s = rstrip "/" s +:+ slashes k.
Proof.
  induction s as [|c rest [k IH]]; first by exists 0%nat.
  cbn [rstrip]. destruct (rstrip "/" rest) as [|c' kept] eqn:Hrest.
  - rewrite char_in_slash. case_bool_decide as Hc.
    + exists (S k). subst c. by rewrite IH at 1.
    + exists k. by rewrite IH at 1.
  - exists k. by rewrite IH at 1.
Qed.

(** ** The request primitive *)

Lemma perform_log self req log : (Client.perform self req log).2 = log ++ [req].
Proof.
  unfold Client.perform. destruct (Client.client_session _ _ _) as [r|e]; last done.
  destruct (raise_for_status r); first done.
  destruct (truthy _); last done. by destruct (resp_json r).
Qed.

(** A supported method is one call on the session. *)
Lemma request_wire self v endpoint params data :
  Client._request self (verb_name v) endpoint params data
  = Client.perform self (wire self v endpoint params data).
Proof. by destruct v. Qed.

Lemma supported_methods_verbs method :
  method ∈ supported_methods ↔ ∃ v, method = verb_name v.
Proof.
  unfold supported_methods. rewrite !elem_of_cons, elem_of_nil. split.
  - intros [->|[->|[->|[->|[]]]]];
      [by exists GET|by exists POST|by exists PUT|by exists DELETE].
  - intros [[] ->]; tauto.
Qed.

Lemma request_GET self endpoint params data :
  Client._request self "GET" endpoint params data
  = Client.perform self
      (WireRequest GET (Client.api_url self +:+ "/" +:+ lstrip "/" endpoint)
         params None ("Bearer " +:+ Client.api_token self)).
Proof. reflexivity. Qed.

Lemma one_get_request self endpoint params data :
  one_get (Client._request self "GET" endpoint params data).
Proof.
  intros log. rewrite request_GET. eexists. split; [apply perform_log|done].
Qed.

(** C9. A method other than GET, POST, PUT and DELETE makes [_request] raise
    the invalid-method error, [ValueError("Unsupported HTTP method: ...")],
    and the log of calls is returned as it was: no call is made. *)
Theorem request_unsupported_method self method endpoint params data log :
  method ∉ supported_methods →
  Client._request self method endpoint params data log
  = (Raise (ValueError ("Unsupported HTTP method: " +:+ method)), log).
Proof.
  unfold supported_methods. rewrite !not_elem_of_cons. intros (? & ? & ? & ? & _).
  unfold Client._request. by rewrite !decide_False by done.
Qed.

Lemma request_unsupported_method_witness :
  Client._request Samples.ok_client "PATCH" "courses" None None []
  = (Raise (ValueError "Unsupported HTTP method: PATCH"), []).
Proof.
  apply (request_unsupported_method Samples.ok_client "PATCH" "courses" None None []).
  exact (bool_decide_unpack ("PATCH" ∉ supported_methods) I).
Defined.

(** C7. Each read operation makes exactly one call, and that call is a
    [GET]: the log grows by one entry whose verb is [GET], so no [POST],
    [PUT] or [DELETE] leaves the client. *)
Theorem read_operations_one_get self :
  (∀ params, one_get (Client.get_courses self params))
  ∧ (∀ course_id, one_get (Client.get_course self course_id))
  ∧ (∀ course_id, one_get (Client.list_sections self course_id))
  ∧ (∀ course_id, one_get (Client.list_modules self course_id))
  ∧ (∀ course_id module_id, one_get (Client.get_module self course_id module_id))
  ∧ (∀ course_id module_id, one_get (Client.list_module_items self course_id module_id))
  ∧ (∀ course_id module_id item_id,
       one_get (Client.get_module_item self course_id module_id item_id))
  ∧ (∀ course_id search_term, one_get (Client.list_pages self course_id search_term))
  ∧ (∀ course_id page_url, one_get (Client.get_page self course_id page_url)).
Proof. repeat split; intros; apply one_get_request. Qed.

(** C8, as the code has it. The URL of the call is the base URL without its
    trailing slashes, one slash, and the endpoint without its leading
    slashes: the left part does not end in a slash and the right part does
    not begin with one, nothing but slashes is removed, and extra leading
    slashes on the endpoint or trailing slashes on the base URL give the
    same request. The rest of the endpoint, trailing slashes included, is
    kept as it is. *)
Theorem request_url base token s v endpoint params data :
  let self := Client.init base token s in
  let url := rstrip "/" base +:+ "/" +:+ lstrip "/" endpoint in
  (∀ log, ∃ req,
     (Client._request self (verb_name v) endpoint params data log).2 = log ++ [req]
     ∧ req_url req = url)
  ∧ ends_with slash (rstrip "/" base) = false
  ∧ starts_with slash (lstrip "/" endpoint) = false
  ∧ (∃ k, base = rstrip "/" base +:+ slashes k)
  ∧ (∃ k, endpoint = slashes k +:+ lstrip "/" endpoint)
  ∧ (∀ k, Client._request self (verb_name v) (slashes k +:+ endpoint) params data
          = Client._request self (verb_name v) endpoint params data)
  ∧ (∀ k, Client.init (base +:+ slashes k) token s = self).
Proof.
  intros self url.
  split; [|split; [|split; [|split; [|split; [|split]]]]].
  - intros log. rewrite request_wire. eexists. split; [apply perform_log|done].
  - apply rstrip_ends.
  - apply lstrip_starts.
  - apply rstrip_suffix.
  - apply lstrip_prefix.
  - intros k. unfold Client._request. by rewrite lstrip_slashes.
  - intros k. unfold self, Client.init. by rewrite rstrip_slashes.
Qed.

(** C8 as the specification words it fails: a trailing slash on the
    endpoint reaches the wire, so the two calls differ. *)
Lemma endpoint_trailing_slash_kept :
  req_url <$> (Client.get_courses Samples.ok_client None []).2
    = ["https://canvas.example/api/v1/courses"]
  ∧ req_url <$> (Client._request Samples.ok_client "GET" "courses/" None None []).2
    = ["https://canvas.example/api/v1/courses/"]
  ∧ req_url <$> (Client.get_page Samples.ok_client "1" "intro/" []).2
    = ["https://canvas.example/api/v1/courses/1/pages/intro/"]
  ∧ (Client._request Samples.ok_client "GET" "courses/" None None []).2
    ≠ (Client._request Samples.ok_client "GET" "courses" None None []).2.
Proof.
  split; [reflexivity|split; [reflexivity|split; [reflexivity|]]].
  intros Hsame. apply (f_equal (fmap req_url)) in Hsame.
  vm_compute in Hsame. discriminate Hsame.
Qed.

(** ** Error mapping *)


(** The message raised for a response whose body decoded to a mapping. *)
Lemma error_message_dict fields e_str :
  Client.error_message (VDict fields) e_str
  = Return match fields !! "errors" with
           | Some (VDict errors) => default (VStr e_str) (errors !! "message")
           | Some (VList (first :: _)) => first
           | _ => default (VStr e_str) (fields !! "message")
           end.
Proof.
  unfold Client.error_message. cbn.
  destruct (fields !! "errors") as [[| | | | |[|first rest]|errors]|]; done.
Qed.




(** ** The trailing segment of a URL *)

Lemma str_split_cons sep s : ∃ piece pieces, str_split sep s = piece :: pieces.
Proof.
  destruct s as [|c rest]; first by eexists _, _.
  cbn [str_split]. destruct (decide (c = sep)); first by eexists _, _.
  destruct (str_split sep rest); by eexists _, _.
Qed.

Lemma last_piece_cons_cons p1 p2 pieces :
  last_piece (p1 :: p2 :: pieces) = last_piece (p2 :: pieces).
Proof. unfold last_piece. by rewrite last_cons_cons. Qed.

(** The last piece of a split holds no separator. *)
Lemma last_piece_no_sep sep s : occurs sep (last_piece (str_split sep s)) = false.
Proof.
  induction s as [|c rest IH]; first done.
  cbn [str_split]. destruct (decide (c = sep)) as [->|Hc].
  - destruct (str_split_cons sep rest) as (piece & pieces & Hrest).
    rewrite Hrest in *. by rewrite last_piece_cons_cons.
  - destruct (str_split sep rest) as [|piece [|piece' pieces]].
    + cbn. by rewrite decide_False.
    + cbn in *. by rewrite decide_False.
    + by rewrite last_piece_cons_cons.
Qed.

(** A string without separator is its own last piece; otherwise it is a
    prefix, one separator and the last piece. *)
Lemma last_piece_shape sep s :
  str_split sep s = [s]
  ∨ ∃ prefix piece pieces,
      str_split sep s = piece :: pieces ∧ pieces ≠ []
      ∧ s = prefix +:+ String sep (last_piece (str_split sep s)).
Proof.
  induction s as [|c rest IH]; first by left.
  cbn [str_split]. destruct (decide (c = sep)) as [->|Hc].
  - right. destruct IH as [Hone|(prefix & piece & pieces & Hrest & Hne & Hshape)].
    + exists "", "", [rest]. by rewrite Hone.
    + exists (String sep prefix), "", (piece :: pieces). rewrite Hrest in *.
      split; [done|]. split; [done|]. rewrite last_piece_cons_cons.
      by rewrite Hshape at 1.
  - destruct IH as [Hone|(prefix & piece & pieces & Hrest & Hne & Hshape)].
    + left. by rewrite Hone.
    + right. rewrite Hrest in *. exists (String c prefix), (String c piece), pieces.
      split; [done|]. split; [done|].
      destruct pieces as [|piece' pieces]; first done.
      rewrite last_piece_cons_cons in *. by rewrite Hshape at 1.
Qed.

Lemma last_piece_suffix sep s :
  let slug := last_piece (str_split sep s) in
  s = slug ∨ ∃ prefix, s = prefix +:+ String sep slug.
Proof.
  destruct (last_piece_shape sep s) as [Hone|(prefix & _ & _ & _ & _ & Hshape)].
  - left. by rewrite Hone.
  - right. by exists prefix.
Qed.

(** ** Payloads *)

Lemma lookup_assign_ne (c : bool) (k k' : string) (v : pyval) (d : payload) :
  k ≠ k' → assign c k' v d !! k = d !! k.
Proof. intros Hk. destruct c; [by apply lookup_insert_ne|done]. Qed.

Lemma lookup_assign_eq (c : bool) (k : string) (v : pyval) (d : payload) :
  assign c k v d !! k = if c then Some v else d !! k.
Proof. destruct c; [by apply lookup_insert_eq|done]. Qed.

Lemma lookup_set_completion_requirement_ne requirement (d : payload) (k : string) :
  k ≠ "module_item[completion_requirement][type]" →
  k ≠ "module_item[completion_requirement][min_score]" →
  Client.set_completion_requirement requirement d !! k = d !! k.
Proof.
  intros Htype Hscore. unfold Client.set_completion_requirement.
  destruct requirement as [fields|]; last done.
  destruct (truthy fields); last done.
  destruct (fields !! "min_score"); by rewrite ?lookup_insert_ne.
Qed.

(** Peeling the assignments to other keys off a payload. *)
Hint Rewrite lookup_assign_eq : payload.
Hint Rewrite lookup_set_completion_requirement_ne using done : payload.
Hint Rewrite lookup_assign_ne using done : payload.
Hint Rewrite @lookup_insert_ne using done : payload.

(** The calls of the write operations on module items. *)
Lemma create_module_item_wire self course_id module_id title type content_id
    position indent page_url external_url new_tab completion_requirement :
  Client.create_module_item self course_id module_id title type content_id
    position indent page_url external_url new_tab completion_requirement
  = Client.perform self
      (wire self POST
         ("courses/" +:+ course_id +:+ "/modules/" +:+ module_id +:+ "/items") None
         (Some (Client.create_module_item_data title type content_id position
                  indent page_url external_url new_tab completion_requirement))).
Proof. reflexivity. Qed.

Lemma create_module_item_data_content_id title type content_id position indent
    page_url external_url new_tab completion_requirement :
  Client.create_module_item_data title type content_id position indent page_url
    external_url new_tab completion_requirement !! "module_item[content_id]"
  = if decide (type = "ExternalUrl") then None else Some (VStr content_id).
Proof.
  unfold Client.create_module_item_data. cbv zeta.
  autorewrite with payload.
  destruct (decide (type = "ExternalUrl")).
  - rewrite bool_decide_eq_true_2 by done. cbn. by autorewrite with payload.
  - by rewrite bool_decide_eq_false_2 by done.
Qed.

Lemma create_module_item_data_page_url title type content_id position indent
    page_url external_url new_tab completion_requirement :
  Client.create_module_item_data title type content_id position indent page_url
    external_url new_tab completion_requirement !! "module_item[page_url]"
  = if decide (type = "Page") then VStr <$> page_url else None.
Proof.
  unfold Client.create_module_item_data. cbv zeta.
  autorewrite with payload.
  destruct (decide (type = "Page")).
  - rewrite bool_decide_eq_true_2 by done. destruct page_url; first done.
    cbn. by autorewrite with payload.
  - rewrite bool_decide_eq_false_2, andb_false_r by done. by autorewrite with payload.
Qed.

Lemma create_module_item_data_external_url title type content_id position indent
    page_url external_url new_tab completion_requirement :
  Client.create_module_item_data title type content_id position indent page_url
    external_url new_tab completion_requirement !! "module_item[external_url]"
  = if decide (type = "ExternalUrl") then VStr <$> external_url else None.
Proof.
  unfold Client.create_module_item_data. cbv zeta.
  autorewrite with payload.
  destruct (decide (type = "ExternalUrl")).
  - rewrite bool_decide_eq_true_2 by done. destruct external_url; first done.
    cbn. by autorewrite with payload.
  - rewrite bool_decide_eq_false_2, andb_false_r by done. by autorewrite with payload.
Qed.

(** C4. The one call of [create_module_item] is a [POST] whose payload has
    the key [module_item[content_id]], bound to the content identifier, when
    and only when the item type is not [ExternalUrl]. *)
Theorem create_module_item_content_id self course_id module_id title type
    content_id position indent page_url external_url new_tab
    completion_requirement log :
  ∃ req data,
    (Client.create_module_item self course_id module_id title type content_id
       position indent page_url external_url new_tab completion_requirement log).2
    = log ++ [req]
    ∧ req_verb req = POST
    ∧ req_data req = Some data
    ∧ (type = "ExternalUrl" → data !! "module_item[content_id]" = None)
    ∧ (type ≠ "ExternalUrl" →
       data !! "module_item[content_id]" = Some (VStr content_id))
    ∧ (is_Some (data !! "module_item[content_id]") ↔ type ≠ "ExternalUrl").
Proof.
  rewrite create_module_item_wire, perform_log. eexists _, _.
  split; [done|]. split; [done|]. split; [done|].
  rewrite create_module_item_data_content_id.
  destruct (decide (type = "ExternalUrl")) as [Heq|Hne].
  - split; [done|]. split; [done|]. split; [by intros [? [=]]|done].
  - split; [done|]. split; [done|]. by split; [|eexists].
Qed.

(** C5. In the payload of [create_module_item] a supplied [page_url] is
    present exactly when the type is [Page] and a supplied [external_url]
    exactly when the type is [ExternalUrl]; with another type the field is
    left out, and the operation is still the one [POST] to the service. *)
Theorem create_module_item_url_fields self course_id module_id title type
    content_id position indent page_url external_url new_tab
    completion_requirement :
  ∃ req data,
    Client.create_module_item self course_id module_id title type content_id
      position indent page_url external_url new_tab completion_requirement
    = Client.perform self req
    ∧ (∀ log, (Client.perform self req log).2 = log ++ [req])
    ∧ req_verb req = POST
    ∧ req_data req = Some data
    ∧ data !! "module_item[page_url]"
      = (if decide (type = "Page") then VStr <$> page_url else None)
    ∧ data !! "module_item[external_url]"
      = (if decide (type = "ExternalUrl") then VStr <$> external_url else None)
    ∧ (∀ url, page_url = Some url →
         is_Some (data !! "module_item[page_url]") ↔ type = "Page")
    ∧ (∀ url, external_url = Some url →
         is_Some (data !! "module_item[external_url]") ↔ type = "ExternalUrl").
Proof.
  rewrite create_module_item_wire. eexists _, _.
  split; [done|]. split; [intros log; apply perform_log|].
  split; [done|]. split; [done|].
  rewrite create_module_item_data_page_url, create_module_item_data_external_url.
  split; [done|]. split; [done|]. split.
  - intros url ->. destruct (decide (type = "Page")); cbn.
    + by split; [|eexists].
    + by split; [intros [? [=]]|].
  - intros url ->. destruct (decide (type = "ExternalUrl")); cbn.
    + by split; [|eexists].
    + by split; [intros [? [=]]|].
Qed.

(** C10. The tool [create_module_item] with [content_id] omitted, or given
    as the empty string, and a type other than [ExternalUrl] is not
    rejected: it is the one [POST] to the service, and its payload binds
    [module_item[content_id]] to the empty string. *)
Theorem tool_create_module_item_without_content_id canvas_client course_id
    module_id title type content_id position indent page_url external_url new_tab
    completion_requirement_type min_score :
  content_id = None ∨ content_id = Some "" →
  type ≠ "ExternalUrl" →
  ∃ req data,
    Server.create_module_item canvas_client course_id module_id title type
      content_id position indent page_url external_url new_tab
      completion_requirement_type min_score
    = Client.perform canvas_client req
    ∧ (∀ log, (Client.perform canvas_client req log).2 = log ++ [req])
    ∧ req_verb req = POST
    ∧ req_data req = Some data
    ∧ data !! "module_item[content_id]" = Some (VStr "").
Proof.
  intros Hcontent Htype. unfold Server.create_module_item.
  rewrite create_module_item_wire. eexists _, _.
  split; [done|]. split; [intros log; apply perform_log|].
  split; [done|]. split; [done|].
  rewrite create_module_item_data_content_id, decide_False by done.
  by destruct Hcontent as [->| ->].
Qed.

Lemma tool_create_module_item_without_content_id_witness :
  ∃ req data,
    Server.create_module_item Samples.ok_client "1" "5" "Essay" "Assignment"
      None None None None None None None None
    = Client.perform Samples.ok_client req
    ∧ (∀ log, (Client.perform Samples.ok_client req log).2 = log ++ [req])
    ∧ req_verb req = POST
    ∧ req_data req = Some data
    ∧ data !! "module_item[content_id]" = Some (VStr "").
Proof.
  apply (tool_create_module_item_without_content_id Samples.ok_client "1" "5"
           "Essay" "Assignment" None None None None None None None None).
  - by left.
  - discriminate.
Defined.

(** ** Indexed keys *)

Lemma pretty_N_go_nonempty x s : s ≠ "" → pretty_N_go x s ≠ "".
Proof.
  revert s. induction (N.lt_wf_0 x) as [x _ IH]; intros s Hs.
  destruct (decide (x = 0)%N) as [->|Hx]; first by rewrite pretty_N_go_0.
  rewrite pretty_N_go_step by lia. apply IH; [apply N.div_lt; lia|done].
Qed.

Lemma pretty_nat_nonempty (i : nat) : pretty i ≠ "".
Proof.
  unfold pretty, pretty_nat, pretty, pretty_N. case_decide; first done.
  rewrite pretty_N_go_step by lia. by apply pretty_N_go_nonempty.
Qed.

Lemma append_bracket_inj s1 s2 : s1 +:+ "]" = s2 +:+ "]" → s1 = s2.
Proof.
  revert s2. induction s1 as [|c1 rest1 IH]; intros [|c2 rest2]; first done.
  - intros [= _ Hrest]. by destruct rest2.
  - intros [= _ Hrest]. by destruct rest1.
  - intros [= -> Hrest]. by rewrite (IH rest2).
Qed.

Global Instance prerequisite_key_inj : Inj (=) (=) Client.prerequisite_key.
Proof.
  intros i j Hkey. unfold Client.prerequisite_key in Hkey.
  apply (inj (String.app _)), append_bracket_inj in Hkey. by apply (inj pretty).
Qed.

(** A key that does not begin like the indexed keys is none of them. *)
Lemma prerequisite_key_other (k : string) :
  (∀ tail, k ≠ "module[prerequisite_module_ids][" +:+ tail) →
  ∀ i, k ≠ Client.prerequisite_key i.
Proof. intros Hk i. apply Hk. Qed.

Lemma prerequisite_key_not_sentinel i :
  "module[prerequisite_module_ids][]" ≠ Client.prerequisite_key i.
Proof.
  unfold Client.prerequisite_key.
  change "module[prerequisite_module_ids][]"
    with ("module[prerequisite_module_ids][" +:+ "]").
  intros Hkey. apply (inj (String.app _)) in Hkey.
  destruct (pretty i) eqn:Hi; [by apply pretty_nat_nonempty in Hi|].
  injection Hkey as _ Hrest. by destruct s.
Qed.

Lemma lookup_enumerate_other start ids (d : payload) (k : string) :
  (∀ i, (start ≤ i < start + length ids)%nat → k ≠ Client.prerequisite_key i) →
  foldl (λ data '(i, module_id), <[Client.prerequisite_key i := VStr module_id]> data)
    d (enumerate_from start ids) !! k = d !! k.
Proof.
  revert start d. induction ids as [|x rest IH]; intros start d Hk; first done.
  cbn [enumerate_from foldl]. rewrite IH.
  - rewrite lookup_insert_ne; [done|]. intros Heq. apply (Hk start); [cbn; lia|done].
  - intros i Hi. apply Hk. cbn. lia.
Qed.

Lemma lookup_enumerate_index start ids (d : payload) (j : nat) :
  (j < length ids)%nat →
  foldl (λ data '(i, module_id), <[Client.prerequisite_key i := VStr module_id]> data)
    d (enumerate_from start ids) !! Client.prerequisite_key (start + j)
  = VStr <$> ids !! j.
Proof.
  revert start d j. induction ids as [|x rest IH]; intros start d j Hj.
  { cbn in Hj. lia. }
  cbn [enumerate_from foldl]. destruct j as [|j].
  - rewrite Nat.add_0_r, lookup_enumerate_other.
    + by rewrite lookup_insert_eq.
    + intros i Hi Heq. apply (inj _) in Heq. lia.
  - replace (start + S j)%nat with (S start + j)%nat by lia.
    rewrite IH; [done|]. cbn in Hj. lia.
Qed.

Lemma lookup_set_prerequisites_index ids (d : payload) (i : nat) :
  (i < length ids)%nat →
  Client.set_prerequisites ids d !! Client.prerequisite_key i = VStr <$> ids !! i.
Proof. intros Hi. by apply (lookup_enumerate_index 0). Qed.

Lemma lookup_set_prerequisites_other ids (d : payload) (k : string) :
  (∀ i, (i < length ids)%nat → k ≠ Client.prerequisite_key i) →
  Client.set_prerequisites ids d !! k = d !! k.
Proof.
  intros Hk. apply (lookup_enumerate_other 0). intros i Hi. apply Hk. lia.
Qed.

Lemma lookup_set_prerequisites_ne ids (d : payload) (k : string) :
  (∀ tail, k ≠ "module[prerequisite_module_ids][" +:+ tail) →
  Client.set_prerequisites ids d !! k = d !! k.
Proof.
  intros Hk. apply lookup_set_prerequisites_other. intros i _.
  by apply prerequisite_key_other.
Qed.

Hint Rewrite lookup_set_prerequisites_ne using (intros ?; discriminate) : payload.

Lemma lookup_if_set_prerequisites_ne (c : bool) ids (d : payload) (k : string) :
  (∀ tail, k ≠ "module[prerequisite_module_ids][" +:+ tail) →
  (if c then Client.set_prerequisites ids d else d) !! k = d !! k.
Proof. intros Hk. destruct c; [by apply lookup_set_prerequisites_ne|done]. Qed.

Lemma lookup_update_prerequisites_ne ids (d : payload) (k : string) :
  (∀ tail, k ≠ "module[prerequisite_module_ids][" +:+ tail) →
  match ids with
  | Some ids =>
      if negb (truthy ids)
      then <["module[prerequisite_module_ids][]" := VStr ""]> d
      else Client.set_prerequisites ids d
  | None => d
  end !! k = d !! k.
Proof.
  intros Hk. destruct ids as [ids|]; last done.
  destruct (negb (truthy ids)); [|by apply lookup_set_prerequisites_ne].
  rewrite lookup_insert_ne; [done|]. intros Heq. by apply (Hk "]").
Qed.

Hint Rewrite lookup_if_set_prerequisites_ne using (intros ?; discriminate) : payload.
Hint Rewrite lookup_update_prerequisites_ne using (intros ?; discriminate) : payload.

Lemma lookup_assign_congr (c : bool) (k k' : string) (v : pyval) (d1 d2 : payload) :
  d1 !! k = d2 !! k → assign c k' v d1 !! k = assign c k' v d2 !! k.
Proof.
  intros Hd. unfold assign. destruct c; last done.
  destruct (decide (k = k')) as [->|Hk]; [by rewrite !lookup_insert_eq|].
  by rewrite !lookup_insert_ne.
Qed.

Lemma prerequisite_key_not_literal i (k : string) :
  (∀ tail, k ≠ "module[prerequisite_module_ids][" +:+ tail) →
  Client.prerequisite_key i ≠ k.
Proof. intros Hk Heq. by apply (prerequisite_key_other k Hk i). Qed.

Hint Rewrite lookup_assign_ne
  using (apply prerequisite_key_not_literal; intros ?; discriminate) : payload.
Hint Rewrite @lookup_insert_ne
  using (apply prerequisite_key_not_literal; intros ?; discriminate) : payload.
Hint Rewrite @lookup_singleton_ne
  using (apply prerequisite_key_not_literal; intros ?; discriminate) : payload.
Hint Rewrite @lookup_singleton_ne using done : payload.
Hint Rewrite @lookup_empty : payload.

(** C6, as the code has it. A non-empty list of prerequisite identifiers
    adds to the payload of [create_module] and of [update_module] exactly the
    indexed keys [module[prerequisite_module_ids][0]] up to [[n-1]], the
    i-th bound to the i-th identifier: every other key is bound as in the
    payload built without the parameter, which has no key of the field, so
    the bare key and the [[]] key are absent. An empty list adds the key
    [module[prerequisite_module_ids][]], bound to the empty string, and
    nothing else in [update_module]; in [create_module] it adds nothing. *)
Theorem prerequisite_module_ids_keys name new_name position unlock_at
    require_sequential_progress publish_final_grade first rest :
  let ids := first :: rest in
  let created prerequisite_module_ids :=
    Client.create_module_data name position unlock_at require_sequential_progress
      prerequisite_module_ids publish_final_grade in
  let updated prerequisite_module_ids :=
    Client.update_module_data new_name position unlock_at require_sequential_progress
      prerequisite_module_ids publish_final_grade in
  let field_absent (d : payload) :=
    d !! "module[prerequisite_module_ids]" = None
    ∧ d !! "module[prerequisite_module_ids][]" = None
    ∧ ∀ i, d !! Client.prerequisite_key i = None in
  let adds_indexed (d d0 : payload) :=
    (∀ i, (i < length ids)%nat →
       d !! Client.prerequisite_key i = VStr <$> ids !! i)
    ∧ (∀ k, (∀ i, (i < length ids)%nat → k ≠ Client.prerequisite_key i) →
         d !! k = d0 !! k)
    ∧ d !! "module[prerequisite_module_ids]" = None
    ∧ d !! "module[prerequisite_module_ids][]" = None in
  field_absent (created None)
  ∧ field_absent (updated None)
  ∧ adds_indexed (created (Some ids)) (created None)
  ∧ adds_indexed (updated (Some ids)) (updated None)
  ∧ updated (Some []) !! "module[prerequisite_module_ids][]" = Some (VStr "")
  ∧ (∀ k, k ≠ "module[prerequisite_module_ids][]" →
       updated (Some []) !! k = updated None !! k)
  ∧ created (Some []) = created None.
Proof.
  cbv zeta. unfold Client.create_module_data, Client.update_module_data. cbv zeta.
  cbn [truthy truthy_option truthy_list negb default].
  split; [|split; [|split; [|split; [|split; [|split]]]]].
  - split; [|split]; [by autorewrite with payload..|].
    intros i. by autorewrite with payload.
  - split; [|split]; [by autorewrite with payload..|].
    intros i. by autorewrite with payload.
  - split; [|split; [|split]].
    + intros i Hi. autorewrite with payload.
      by apply lookup_set_prerequisites_index.
    + intros k Hk. apply lookup_assign_congr.
      by apply lookup_set_prerequisites_other.
    + by autorewrite with payload.
    + rewrite lookup_assign_ne by done.
      rewrite lookup_set_prerequisites_other
        by (intros i _; apply prerequisite_key_not_sentinel).
      by autorewrite with payload.
  - split; [|split; [|split]].
    + intros i Hi. autorewrite with payload.
      by apply lookup_set_prerequisites_index.
    + intros k Hk. apply lookup_assign_congr.
      by apply lookup_set_prerequisites_other.
    + by autorewrite with payload.
    + rewrite lookup_assign_ne by done.
      rewrite lookup_set_prerequisites_other
        by (intros i _; apply prerequisite_key_not_sentinel).
      by autorewrite with payload.
  - autorewrite with payload. by rewrite lookup_insert_eq.
  - intros k Hk. apply lookup_assign_congr. by rewrite lookup_insert_ne.
  - done.
Qed.

(** C6 as the specification words it fails for [create_module]: an empty
    list emits no [[]] key there, as it does in [update_module]. *)
Lemma create_module_empty_list_no_sentinel :
  Client.create_module_data "Week 1" None None None (Some []) None
    !! "module[prerequisite_module_ids][]" = None
  ∧ Client.update_module_data None None None None (Some []) None
    !! "module[prerequisite_module_ids][]" = Some (VStr "")
  ∧ Client.create_module_data "Week 1" None None None (Some []) None
    = {[ "module[name]" := VStr "Week 1" ]}.
Proof. by split; [|split]. Qed.

(** ** Optional parameters *)

Lemma add_page_to_module_run py_str self course_id module_id page_url title
    position indent new_tab log fields log1 :
  Client.get_page self course_id page_url log = (Return (VDict fields), log1) →
  Client.add_page_to_module py_str self course_id module_id page_url title
    position indent new_tab log
  = Client.create_module_item self course_id module_id
      (if truthy title then to_val title else default (VStr "") (fields !! "title"))
      "Page" (py_str (default (VStr "") (fields !! "id")))
      position indent (Some page_url) None new_tab None log1.
Proof.
  intros Hpage. unfold Client.add_page_to_module, mbind, M_bind. rewrite Hpage.
  unfold lift, Client.title_or_page_title. by destruct (truthy title).
Qed.

Lemma lookup_set_completion_requirement_type requirement (d : payload) :
  Client.set_completion_requirement requirement d
    !! "module_item[completion_requirement][type]"
  = if truthy requirement
    then Some (default (VStr "") (default ∅ requirement !! "type"))
    else d !! "module_item[completion_requirement][type]".
Proof.
  unfold Client.set_completion_requirement.
  destruct requirement as [fields|]; last done. cbn.
  destruct (truthy fields); last done.
  destruct (fields !! "min_score");
    by rewrite ?lookup_insert_ne, lookup_insert_eq by done.
Qed.

Lemma lookup_set_completion_requirement_min_score requirement (d : payload) :
  Client.set_completion_requirement requirement d
    !! "module_item[completion_requirement][min_score]"
  = if truthy requirement
    then match default ∅ requirement !! "min_score" with
         | Some min_score => Some min_score
         | None => d !! "module_item[completion_requirement][min_score]"
         end
    else d !! "module_item[completion_requirement][min_score]".
Proof.
  unfold Client.set_completion_requirement.
  destruct requirement as [fields|]; last done. cbn.
  destruct (truthy fields); last done.
  destruct (fields !! "min_score");
    by rewrite ?lookup_insert_eq, ?lookup_insert_ne by done.
Qed.

Hint Rewrite lookup_set_completion_requirement_type : payload.
Hint Rewrite lookup_set_completion_requirement_min_score : payload.

Lemma truthy_dict_empty : truthy (∅ : payload) = false.
Proof. unfold truthy, truthy_dict. by rewrite bool_decide_eq_true_2. Qed.

Lemma truthy_dict_nonempty (d : payload) : d ≠ ∅ → truthy d = true.
Proof. intros Hd. unfold truthy, truthy_dict. by rewrite bool_decide_eq_false_2. Qed.

Lemma completion_sent_iff_truthy_build (build : option payload → payload)
    (d : payload) :
  (∀ requirement, build requirement = Client.set_completion_requirement requirement d) →
  d !! "module_item[completion_requirement][type]" = None →
  d !! "module_item[completion_requirement][min_score]" = None →
  completion_sent_iff_truthy build.
Proof.
  intros Hbuild Htype Hscore. unfold completion_sent_iff_truthy. cbv zeta.
  rewrite !Hbuild. autorewrite with payload. cbn [truthy truthy_option default].
  rewrite truthy_dict_empty. split; [done|]. split; [done|].
  intros requirement Hne. rewrite !Hbuild. autorewrite with payload.
  cbn [truthy truthy_option default]. rewrite truthy_dict_nonempty by done.
  split; [done|]. unfold id. by destruct (requirement !! "min_score").
Qed.

(** ** The composite operations *)

Lemma perform_eta self req log :
  Client.perform self req log = ((Client.perform self req log).1, log ++ [req]).
Proof.
  rewrite <- (perform_log self req log). by destruct (Client.perform self req log).
Qed.

Lemma create_page_wire self course_id title body editing_roles published front_page :
  Client.create_page self course_id title body editing_roles published front_page
  = Client.perform self
      (wire self POST ("courses/" +:+ course_id +:+ "/pages") None
         (Some (Client.create_page_data title body editing_roles published front_page))).
Proof. reflexivity. Qed.

Lemma get_page_wire self course_id page_url :
  Client.get_page self course_id page_url
  = Client.perform self
      (wire self GET ("courses/" +:+ course_id +:+ "/pages/" +:+ page_url) None None).
Proof. reflexivity. Qed.

(** [add_page_to_module] fetches the page and, unless that fails or the page
    is no mapping, posts the module item. *)
Lemma add_page_to_module_calls py_str self course_id module_id page_url title
    position indent new_tab log :
  let run :=
    Client.add_page_to_module py_str self course_id module_id page_url title
      position indent new_tab log in
  let fetch :=
    wire self GET ("courses/" +:+ course_id +:+ "/pages/" +:+ page_url) None None in
  (∃ e, run = (Raise e, log ++ [fetch]))
  ∨ (∃ item_title content_id,
       run = Client.create_module_item self course_id module_id item_title "Page"
               content_id position indent (Some page_url) None new_tab None
               (log ++ [fetch])).
Proof.
  cbv zeta. unfold Client.add_page_to_module, mbind, M_bind.
  rewrite get_page_wire, perform_eta.
  destruct (Client.perform _ _ _).1 as [page|e]; [|left; by eexists].
  unfold lift.
  destruct (Client.title_or_page_title title page) as [item_title|e];
    [|left; by eexists].
  destruct (py_get page "id" (VStr "")) as [page_id|e]; [|left; by eexists].
  right. by eexists _, _.
Qed.



(** ** Optional parameters, in the client and in the tools *)

Lemma update_module_item_wire self course_id module_id item_id title position
    indent external_url new_tab completion_requirement :
  Client.update_module_item self course_id module_id item_id title position indent
    external_url new_tab completion_requirement
  = Client.perform self
      (wire self PUT
         ("courses/" +:+ course_id +:+ "/modules/" +:+ module_id +:+ "/items/"
          +:+ item_id) None
         (Some (Client.update_module_item_data title position indent external_url
                  new_tab completion_requirement))).
Proof. reflexivity. Qed.

(** The two keys that the requirement built by the tools puts in a payload
    that has neither. *)
Lemma completion_requirement_of_keys completion_requirement_type min_score
    (d : payload) :
  d !! "module_item[completion_requirement][type]" = None →
  d !! "module_item[completion_requirement][min_score]" = None →
  let sent :=
    Client.set_completion_requirement
      (Server.completion_requirement_of completion_requirement_type min_score) d in
  sent !! "module_item[completion_requirement][type]"
  = (match completion_requirement_type with
     | Some t => if truthy t then Some (VStr t) else None
     | None => None
     end)
  ∧ sent !! "module_item[completion_requirement][min_score]"
    = (if decide (completion_requirement_type = Some "min_score")
       then VFloat <$> min_score else None).
Proof.
  intros Htype Hscore. cbv zeta. unfold Server.completion_requirement_of.
  destruct completion_requirement_type as [t|]; cbn [truthy truthy_option].
  2: { autorewrite with payload. cbn [truthy truthy_option].
       by rewrite decide_False. }
  destruct (truthy t) eqn:Ht.
  2: { autorewrite with payload. cbn [truthy truthy_option].
       rewrite decide_False; [done|]. by intros [= ->]. }
  cbn [to_val to_val_option to_val_string].
  destruct (decide (Some t = Some "min_score")) as [Heq|Hne].
  - rewrite bool_decide_eq_true_2 by done.
    destruct min_score as [score|]; cbn [is_not_None andb to_val to_val_option];
      autorewrite with payload; cbn [truthy truthy_option default fmap option_fmap
                                     option_map];
      rewrite truthy_dict_nonempty by apply insert_non_empty.
    + unfold id. by simplify_map_eq.
    + unfold id. by simplify_map_eq.
  - rewrite bool_decide_eq_false_2 by done. cbn [andb].
    autorewrite with payload. cbn [truthy truthy_option default].
    rewrite truthy_dict_nonempty by apply insert_non_empty.
    unfold id. by simplify_map_eq.
Qed.

(** The calls of [create_page_and_add_to_module]: the creation of the page
    first, with the page parameters of the tool, and no other [POST] than
    that of a module item with the item parameters of the tool. *)
Lemma create_page_and_add_to_module_shape py_str canvas_client course_id module_id
    title body editing_roles published front_page position indent new_tab log :
  ∃ rest,
    (Server.create_page_and_add_to_module py_str canvas_client course_id module_id
       title body editing_roles published front_page position indent new_tab log).2
    = log ++ wire canvas_client POST ("courses/" +:+ course_id +:+ "/pages") None
               (Some (Client.create_page_data title body editing_roles published
                        front_page))
          :: rest
    ∧ ∀ req, req ∈ rest → req_verb req = POST →
        ∃ slug item_title content_id,
          req_data req
          = Some (Client.create_module_item_data item_title "Page" content_id
                    position indent (Some slug) None new_tab None).
Proof.
  unfold Server.create_page_and_add_to_module, mbind, M_bind.
  rewrite create_page_wire, perform_eta.
  destruct (Client.perform _ _ _).1 as [page|e].
  2: { exists []. split; [done|]. intros req Hreq. by apply elem_of_nil in Hreq. }
  unfold lift. destruct (Server.page_slug page) as [slug|e].
  2: { exists []. split; [done|]. intros req Hreq. by apply elem_of_nil in Hreq. }
  destruct (add_page_to_module_calls py_str canvas_client course_id module_id slug
              (Some title) position indent new_tab
              (log ++ [wire canvas_client POST ("courses/" +:+ course_id +:+ "/pages")
                         None
                         (Some (Client.create_page_data title body editing_roles
                                  published front_page))]))
    as [[e Hrun]|(item_title & content_id & Hrun)]; cbv zeta in Hrun; rewrite Hrun.
  - eexists [_]. split; [by rewrite <- app_assoc|].
    intros req Hreq Hverb. apply list_elem_of_singleton in Hreq. by subst req.
  - rewrite create_module_item_wire, perform_log, <- !app_assoc.
    eexists [_; _]. split; [done|].
    intros req Hreq Hverb. rewrite !elem_of_cons, elem_of_nil in Hreq.
    destruct Hreq as [->|[->|[]]]; [done|]. by eexists _, _, _.
Qed.

(** C1, as the code has it. In every operation of the client and in every
    tool, the key of an optional parameter that is not given is absent from
    the payload, with three exceptions: the title of [add_page_to_module],
    whose key is then bound to the title of the fetched page; the
    [content_id] of the tool [create_module_item], bound to the empty string
    unless the type is [ExternalUrl]; and the [published] of
    [create_page_and_add_to_module], whose default is [True] and which is
    then sent as such. A parameter guarded by [is not None] is bound under
    its key whenever it is given, be it [0], [false] or the empty string; the
    two URL fields of [create_module_item] only with the matching item type,
    an empty prerequisite list of [update_module] as the [[]] key, and the
    [min_score] of the module-item tools only with the requirement type
    [min_score]. A parameter guarded by its truth value ([course_code],
    [sis_course_id], [sis_section_id], the [section_name] of
    [update_section], the prerequisite list of [create_module],
    [completion_requirement], the [completion_requirement_type] of the
    tools, [search_term]) is left out when it is given empty. The other
    tools pass their parameters on unchanged to the operation of the client
    with their name. *)
Theorem optional_parameters :
  (* get_courses *)
  (∀ self log, ∃ req,
     (Client.get_courses self None log).2 = log ++ [req]
     ∧ req_params req = None ∧ req_data req = None)
  (* create_course *)
  ∧ (∀ name sis_course_id,
       sent_iff_truthy "course[course_code]"
         (λ course_code, Client.create_course_data name course_code sis_course_id))
  ∧ (∀ name course_code,
       sent_iff_truthy "course[sis_course_id]"
         (λ sis_course_id, Client.create_course_data name course_code sis_course_id))
  (* create_section, update_section *)
  ∧ (∀ section_name,
       sent_iff_truthy "course_section[sis_section_id]"
         (λ sis_section_id, Client.create_section_data section_name sis_section_id))
  ∧ sent_iff_truthy "course_section[name]" Client.update_section_data
  (* create_module *)
  ∧ (∀ name unlock_at sequential ids final_grade,
       sent_iff_set "module[position]"
         (λ position,
            Client.create_module_data name position unlock_at sequential ids final_grade))
  ∧ (∀ name position sequential ids final_grade,
       sent_iff_set "module[unlock_at]"
         (λ unlock_at,
            Client.create_module_data name position unlock_at sequential ids final_grade))
  ∧ (∀ name position unlock_at ids final_grade,
       sent_iff_set "module[require_sequential_progress]"
         (λ sequential,
            Client.create_module_data name position unlock_at sequential ids final_grade))
  ∧ (∀ name position unlock_at sequential ids,
       sent_iff_set "module[publish_final_grade]"
         (λ final_grade,
            Client.create_module_data name position unlock_at sequential ids final_grade))
  ∧ (∀ name position unlock_at sequential final_grade,
       prerequisites_absent
         (Client.create_module_data name position unlock_at sequential None final_grade)
       ∧ prerequisites_absent
           (Client.create_module_data name position unlock_at sequential (Some [])
              final_grade))
  (* update_module *)
  ∧ (∀ position unlock_at sequential ids final_grade,
       sent_iff_set "module[name]"
         (λ name,
            Client.update_module_data name position unlock_at sequential ids final_grade))
  ∧ (∀ name unlock_at sequential ids final_grade,
       sent_iff_set "module[position]"
         (λ position,
            Client.update_module_data name position unlock_at sequential ids final_grade))
  ∧ (∀ name position sequential ids final_grade,
       sent_iff_set "module[unlock_at]"
         (λ unlock_at,
            Client.update_module_data name position unlock_at sequential ids final_grade))
  ∧ (∀ name position unlock_at ids final_grade,
       sent_iff_set "module[require_sequential_progress]"
         (λ sequential,
            Client.update_module_data name position unlock_at sequential ids final_grade))
  ∧ (∀ name position unlock_at sequential ids,
       sent_iff_set "module[publish_final_grade]"
         (λ final_grade,
            Client.update_module_data name position unlock_at sequential ids final_grade))
  ∧ (∀ name position unlock_at sequential final_grade,
       prerequisites_absent
         (Client.update_module_data name position unlock_at sequential None final_grade)
       ∧ Client.update_module_data name position unlock_at sequential (Some [])
           final_grade !! "module[prerequisite_module_ids][]" = Some (VStr ""))
  (* create_module_item *)
  ∧ (∀ title type content_id indent page_url external_url new_tab requirement,
       sent_iff_set "module_item[position]"
         (λ position,
            Client.create_module_item_data title type content_id position indent
              page_url external_url new_tab requirement))
  ∧ (∀ title type content_id position page_url external_url new_tab requirement,
       sent_iff_set "module_item[indent]"
         (λ indent,
            Client.create_module_item_data title type content_id position indent
              page_url external_url new_tab requirement))
  ∧ (∀ title type content_id position indent page_url external_url requirement,
       sent_iff_set "module_item[new_tab]"
         (λ new_tab,
            Client.create_module_item_data title type content_id position indent
              page_url external_url new_tab requirement))
  ∧ (∀ title type content_id position indent page_url external_url new_tab requirement,
       Client.create_module_item_data title type content_id position indent
         page_url external_url new_tab requirement !! "module_item[page_url]"
       = (if decide (type = "Page") then VStr <$> page_url else None)
       ∧ Client.create_module_item_data title type content_id position indent
           page_url external_url new_tab requirement !! "module_item[external_url]"
         = (if decide (type = "ExternalUrl") then VStr <$> external_url else None))
  ∧ (∀ title type content_id position indent page_url external_url new_tab,
       completion_sent_iff_truthy
         (Client.create_module_item_data title type content_id position indent
            page_url external_url new_tab))
  (* update_module_item *)
  ∧ (∀ position indent external_url new_tab requirement,
       sent_iff_set "module_item[title]"
         (λ title,
            Client.update_module_item_data title position indent external_url
              new_tab requirement))
  ∧ (∀ title indent external_url new_tab requirement,
       sent_iff_set "module_item[position]"
         (λ position,
            Client.update_module_item_data title position indent external_url
              new_tab requirement))
  ∧ (∀ title position external_url new_tab requirement,
       sent_iff_set "module_item[indent]"
         (λ indent,
            Client.update_module_item_data title position indent external_url
              new_tab requirement))
  ∧ (∀ title position indent new_tab requirement,
       sent_iff_set "module_item[external_url]"
         (λ external_url,
            Client.update_module_item_data title position indent external_url
              new_tab requirement))
  ∧ (∀ title position indent external_url requirement,
       sent_iff_set "module_item[new_tab]"
         (λ new_tab,
            Client.update_module_item_data title position indent external_url
              new_tab requirement))
  ∧ (∀ title position indent external_url new_tab,
       completion_sent_iff_truthy
         (Client.update_module_item_data title position indent external_url new_tab))
  (* list_pages *)
  ∧ sent_iff_truthy "search_term" Client.list_pages_params
  (* create_page *)
  ∧ (∀ title body published front_page,
       sent_iff_set "wiki_page[editing_roles]"
         (λ editing_roles,
            Client.create_page_data title body editing_roles published front_page))
  ∧ (∀ title body editing_roles front_page,
       sent_iff_set "wiki_page[published]"
         (λ published,
            Client.create_page_data title body editing_roles published front_page))
  ∧ (∀ title body editing_roles published,
       sent_iff_set "wiki_page[front_page]"
         (λ front_page,
            Client.create_page_data title body editing_roles published front_page))
  (* update_page *)
  ∧ (∀ body editing_roles published front_page,
       sent_iff_set "wiki_page[title]"
         (λ title,
            Client.update_page_data title body editing_roles published front_page))
  ∧ (∀ title editing_roles published front_page,
       sent_iff_set "wiki_page[body]"
         (λ body,
            Client.update_page_data title body editing_roles published front_page))
  ∧ (∀ title body published front_page,
       sent_iff_set "wiki_page[editing_roles]"
         (λ editing_roles,
            Client.update_page_data title body editing_roles published front_page))
  ∧ (∀ title body editing_roles front_page,
       sent_iff_set "wiki_page[published]"
         (λ published,
            Client.update_page_data title body editing_roles published front_page))
  ∧ (∀ title body editing_roles published,
       sent_iff_set "wiki_page[front_page]"
         (λ front_page,
            Client.update_page_data title body editing_roles published front_page))
  (* add_page_to_module: its payload is that of create_module_item, with the
     title of the fetched page when none is given *)
  ∧ (∀ py_str self course_id module_id page_url position indent new_tab
       log fields log1,
       Client.get_page self course_id page_url log = (Return (VDict fields), log1) →
       Client.add_page_to_module py_str self course_id module_id page_url None
         position indent new_tab log
       = Client.create_module_item self course_id module_id
           (default (VStr "") (fields !! "title")) "Page"
           (py_str (default (VStr "") (fields !! "id")))
           position indent (Some page_url) None new_tab None log1)
  ∧ (∀ title type content_id position indent page_url external_url new_tab requirement,
       Client.create_module_item_data title type content_id position indent
         page_url external_url new_tab requirement !! "module_item[title]"
       = Some title)
  (* the tools that pass their parameters on *)
  ∧ (∀ canvas_client,
       Server.get_courses canvas_client = Client.get_courses canvas_client None)
  ∧ (∀ canvas_client account_id name course_code sis_course_id,
       Server.create_course canvas_client account_id name course_code sis_course_id
       = Client.create_course canvas_client account_id name course_code
           sis_course_id)
  ∧ (∀ canvas_client course_id section_name sis_section_id,
       Server.create_section canvas_client course_id section_name sis_section_id
       = Client.create_section canvas_client course_id section_name sis_section_id)
  ∧ (∀ canvas_client section_id section_name,
       Server.update_section canvas_client section_id section_name
       = Client.update_section canvas_client section_id section_name)
  ∧ (∀ canvas_client course_id name position unlock_at sequential ids final_grade,
       Server.create_module canvas_client course_id name position unlock_at
         sequential ids final_grade
       = Client.create_module canvas_client course_id name position unlock_at
           sequential ids final_grade)
  ∧ (∀ canvas_client course_id module_id name position unlock_at sequential ids
       final_grade,
       Server.update_module canvas_client course_id module_id name position
         unlock_at sequential ids final_grade
       = Client.update_module canvas_client course_id module_id name position
           unlock_at sequential ids final_grade)
  ∧ (∀ canvas_client course_id search_term,
       Server.list_pages canvas_client course_id search_term
       = Client.list_pages canvas_client course_id search_term)
  ∧ (∀ canvas_client course_id title body editing_roles published front_page,
       Server.create_page canvas_client course_id title body editing_roles
         published front_page
       = Client.create_page canvas_client course_id title body editing_roles
           published front_page)
  ∧ (∀ canvas_client course_id page_url title body editing_roles published
       front_page,
       Server.update_page canvas_client course_id page_url title body editing_roles
         published front_page
       = Client.update_page canvas_client course_id page_url title body
           editing_roles published front_page)
  ∧ (∀ py_str canvas_client course_id module_id page_url title position indent
       new_tab,
       Server.add_page_to_module py_str canvas_client course_id module_id page_url
         title position indent new_tab
       = Client.add_page_to_module py_str canvas_client course_id module_id
           page_url title position indent new_tab)
  (* the tool create_module_item: a content identifier that is not given is
     the empty string *)
  ∧ (∀ canvas_client course_id module_id title type content_id position indent
       page_url external_url new_tab requirement_type min_score,
       Server.create_module_item canvas_client course_id module_id title type
         content_id position indent page_url external_url new_tab requirement_type
         min_score
       = Client.create_module_item canvas_client course_id module_id (VStr title)
           type (default "" content_id) position indent page_url external_url
           new_tab (Server.completion_requirement_of requirement_type min_score))
  ∧ (∀ title type position indent page_url external_url new_tab requirement,
       Client.create_module_item_data title type (default "" None) position indent
         page_url external_url new_tab requirement !! "module_item[content_id]"
       = (if decide (type = "ExternalUrl") then None else Some (VStr "")))
  (* the tool update_module_item *)
  ∧ (∀ canvas_client course_id module_id item_id title position indent
       external_url new_tab requirement_type min_score,
       Server.update_module_item canvas_client course_id module_id item_id title
         position indent external_url new_tab requirement_type min_score
       = Client.update_module_item canvas_client course_id module_id item_id title
           position indent external_url new_tab
           (Server.completion_requirement_of requirement_type min_score))
  (* the completion requirement of the two module-item tools *)
  ∧ (∀ title type content_id position indent page_url external_url new_tab
       requirement_type min_score,
       Client.create_module_item_data title type content_id position indent
         page_url external_url new_tab
         (Server.completion_requirement_of requirement_type min_score)
         !! "module_item[completion_requirement][type]"
       = (match requirement_type with
          | Some t => if truthy t then Some (VStr t) else None
          | None => None
          end)
       ∧ Client.create_module_item_data title type content_id position indent
           page_url external_url new_tab
           (Server.completion_requirement_of requirement_type min_score)
           !! "module_item[completion_requirement][min_score]"
         = (if decide (requirement_type = Some "min_score")
            then VFloat <$> min_score else None))
  ∧ (∀ title position indent external_url new_tab requirement_type min_score,
       Client.update_module_item_data title position indent external_url new_tab
         (Server.completion_requirement_of requirement_type min_score)
         !! "module_item[completion_requirement][type]"
       = (match requirement_type with
          | Some t => if truthy t then Some (VStr t) else None
          | None => None
          end)
       ∧ Client.update_module_item_data title position indent external_url new_tab
           (Server.completion_requirement_of requirement_type min_score)
           !! "module_item[completion_requirement][min_score]"
         = (if decide (requirement_type = Some "min_score")
            then VFloat <$> min_score else None))
  (* the tool create_page_and_add_to_module: its first call carries the
     payload of create_page for its page parameters and any later POST that
     of create_module_item for its item parameters; published, left out, is
     its default *)
  ∧ (∀ py_str canvas_client course_id module_id title body editing_roles
       published front_page position indent new_tab log,
       ∃ rest,
         (Server.create_page_and_add_to_module py_str canvas_client course_id
            module_id title body editing_roles published front_page position
            indent new_tab log).2
         = log ++ wire canvas_client POST ("courses/" +:+ course_id +:+ "/pages")
                    None
                    (Some (Client.create_page_data title body editing_roles
                             published front_page))
               :: rest
         ∧ ∀ req, req ∈ rest → req_verb req = POST →
             ∃ slug item_title content_id,
               req_data req
               = Some (Client.create_module_item_data item_title "Page" content_id
                         position indent (Some slug) None new_tab None))
  ∧ (∀ title body editing_roles front_page,
       Client.create_page_data title body editing_roles Server.published_default
         front_page !! "wiki_page[published]"
       = Some (VBool true)).
Proof.
  unfold sent_iff_set, sent_iff_truthy, prerequisites_absent.
  repeat match goal with |- _ ∧ _ => split end.
  all: intros; repeat match goal with |- _ ∧ _ => split end; intros.
  all: try (eapply completion_sent_iff_truthy_build; [intros; reflexivity|..]).
  all: try (unfold Client.create_course_data, Client.create_section_data,
              Client.update_section_data, Client.create_module_data,
              Client.update_module_data, Client.create_module_item_data,
              Client.update_module_item_data, Client.list_pages_params,
              Client.create_page_data, Client.update_page_data;
            cbv zeta; payload_lookup; done).
  - unfold Client.get_courses. rewrite request_GET, perform_log. by eexists.
  - unfold Client.update_module_data. cbv zeta. payload_lookup.
    by rewrite lookup_insert_eq.
  - apply create_module_item_data_page_url.
  - apply create_module_item_data_external_url.
  - by apply add_page_to_module_run.
  - unfold Server.create_module_item, Server.content_id_or_empty.
    by destruct content_id as [[|c rest]|].
  - apply create_module_item_data_content_id.
  - unfold Client.create_module_item_data. cbv zeta.
    apply completion_requirement_of_keys; by payload_lookup.
  - unfold Client.create_module_item_data. cbv zeta.
    apply completion_requirement_of_keys; by payload_lookup.
  - unfold Client.update_module_item_data. cbv zeta.
    apply completion_requirement_of_keys; by payload_lookup.
  - unfold Client.update_module_item_data. cbv zeta.
    apply completion_requirement_of_keys; by payload_lookup.
  - apply create_page_and_add_to_module_shape.
Qed.

(** C1 as the specification words it fails: an empty [course_code] given to
    [create_course] is not in the payload, and the call carries the name
    alone. *)
Lemma create_course_empty_code_omitted :
  Client.create_course_data "Algebra" (Some "") None !! "course[course_code]" = None
  ∧ (Client.create_course Samples.ok_client "1" "Algebra" (Some "") None []).2
    = [WireRequest POST "https://canvas.example/api/v1/accounts/1/courses" None
         (Some {[ "course[name]" := VStr "Algebra" ]}) "Bearer token"].
Proof. by split. Qed.

(** ** The scenarios of the specification, run on the model *)

(** A 401 whose body is [{"errors": {"message": "Unauthorized"}}]. *)
Example error_mapping_unauthorized :
  Client.on_request_exception
    (RequestException "401 Client Error"
       (Some (Response 401 "{...}"
                (Decoded (VDict {[ "errors" :=
                                     VDict {[ "message" := VStr "Unauthorized" ]} ]}))
                "401 Client Error")))
  = CanvasAPIError 401 (VStr "Unauthorized").
Proof. reflexivity. Qed.

(** A 400 whose body is [{"errors": ["bad request"]}]. *)
Example error_mapping_first_of_list :
  Client.on_request_exception
    (RequestException "400 Client Error"
       (Some (Response 400 "{...}"
                (Decoded (VDict {[ "errors" := VList [VStr "bad request"] ]}))
                "400 Client Error")))
  = CanvasAPIError 400 (VStr "bad request").
Proof. reflexivity. Qed.

(** A failure without a response. *)
Example error_mapping_no_response :
  Client.on_request_exception (RequestException "Connection refused" None)
  = CanvasAPIError 500 (VStr "Connection refused").
Proof. reflexivity. Qed.

(** [create_section(course_id="123", section_name="Test Section")] is one
    [POST] whose body has the name alone. *)
Example create_section_scenario :
  calls (Client.create_section Samples.ok_client "123" "Test Section" None) []
  = [WireRequest POST "https://canvas.example/api/v1/courses/123/sections" None
       (Some {[ "course_section[name]" := VStr "Test Section" ]}) "Bearer token"].
Proof. reflexivity. Qed.

(** Two prerequisites of [create_module] become two indexed keys. *)
Example create_module_two_prerequisites :
  Client.create_module_data "Week 2" None None None (Some ["11"; "12"]) None
  = <["module[prerequisite_module_ids][1]" := VStr "12"]>
      (<["module[prerequisite_module_ids][0]" := VStr "11"]>
         {[ "module[name]" := VStr "Week 2" ]}).
Proof. reflexivity. Qed.

(** * Further properties of the client and the tools *)

(** ** The request primitive *)

(** X1. A supported [_request] makes exactly one call, whatever the session
    answers: to the URL built from the endpoint, with the query parameters
    as given and the [Authorization] header [Bearer <token>]; [POST] and
    [PUT] carry [data], and [GET] and [DELETE] carry no body even when
    [data] is given. *)
Theorem request_one_call self v endpoint params data log :
  ∃ req,
    (Client._request self (verb_name v) endpoint params data log).2 = log ++ [req]
    ∧ req_verb req = v
    ∧ req_url req = Client.api_url self +:+ "/" +:+ lstrip "/" endpoint
    ∧ req_params req = params
    ∧ req_authorization req = "Bearer " +:+ Client.api_token self
    ∧ (v = POST ∨ v = PUT → req_data req = data)
    ∧ (v = GET ∨ v = DELETE → req_data req = None).
Proof.
  rewrite request_wire, perform_log. eexists. split; [done|].
  repeat split; by destruct v; intros [|].
Qed.

(** X2. A supported [_request] returns a value exactly when the session
    answers with a status outside 400..599 and either the content is empty,
    the value then being the empty mapping, or the content is not empty and
    decodes to the value. *)
Theorem request_returns_iff self v endpoint params data log value :
  (Client._request self (verb_name v) endpoint params data log).1 = Return value
  ↔ ∃ r,
      Client.client_session self log (wire self v endpoint params data) = Responded r
      ∧ ¬ (400 ≤ resp_status_code r < 600)
      ∧ (resp_content r = "" ∧ value = VDict ∅
         ∨ resp_content r ≠ "" ∧ resp_json r = Decoded value).
Proof.
  rewrite request_wire. unfold Client.perform, raise_for_status.
  destruct (Client.client_session _ _ _) as [r|e]; cbn.
  - case_bool_decide as Hstatus; cbn.
    + split; [done|]. intros (r' & [= <-] & Hok & _). done.
    + destruct (resp_content r) as [|c rest] eqn:Hcontent; cbn.
      * split.
        -- intros [= <-]. exists r. split; [done|]. split; [done|]. by left.
        -- intros (r' & [= <-] & _ & [[_ ->]|[Hne _]]); [done|].
           by rewrite Hcontent in Hne.
      * destruct (resp_json r) as [body|error_text] eqn:Hjson; cbn.
        -- split.
           ++ intros [= <-]. exists r. split; [done|]. split; [done|]. right.
              by rewrite Hcontent.
           ++ intros (r' & [= <-] & _ & [[Hempty _]|[_ Hbody]]).
              ** by rewrite Hcontent in Hempty.
              ** rewrite Hjson in Hbody. by injection Hbody as ->.
        -- split; [done|].
           intros (r' & [= <-] & _ & [[Hempty _]|[_ Hbody]]).
           ++ by rewrite Hcontent in Hempty.
           ++ by rewrite Hjson in Hbody.
  - split; [done|]. by intros (r & [=] & _).
Qed.

(** X3. What the [except] block raises for a transport failure is never a
    [ValueError]. It is an [AttributeError] exactly when there is a response
    whose body decodes to a value that is no mapping, and otherwise a
    [CanvasAPIError] whose status is that of the response, 500 without one. *)
Theorem request_failure_kind e :
  (Client.on_request_exception e = AttributeError
   ↔ ∃ r body,
       exc_response e = Some r ∧ resp_json r = Decoded body ∧ not_a_mapping body)
  ∧ (∀ msg, Client.on_request_exception e ≠ ValueError msg)
  ∧ (∀ status message,
       Client.on_request_exception e = CanvasAPIError status message →
       status = match exc_response e with
                | Some r => resp_status_code r
                | None => 500
                end).
Proof.
  unfold Client.on_request_exception.
  destruct (exc_response e) as [r|].
  2: { split; [split; [done|by intros (? & ? & [=] & _)]|].
       split; [done|]. by intros ? ? [= <- _]. }
  destruct (resp_json r) as [body|error_text] eqn:Hjson.
  - destruct body as [| | | | | |fields].
    1-6: cbn; (split; [split; [intros _; by eexists _, _|done]|by split]).
    rewrite error_message_dict. split; [split; [done|]|split; [done|]].
    + intros (? & ? & [= <-] & Hbody & Hnot). rewrite Hjson in Hbody.
      by injection Hbody as <-.
    + by intros ? ? [= <- _].
  - split; [split; [done|]|split; [done|]].
    + intros (? & ? & [= <-] & Hbody & _). by rewrite Hjson in Hbody.
    + by intros ? ? [= <- _].
Qed.

(** ** The write operations *)

Lemma one_call_request self v path params data sent :
  sent = match v with POST | PUT => data | GET | DELETE => None end →
  lstrip "/" path = path →
  one_call self v path params sent
    (Client._request self (verb_name v) path params data).
Proof.
  intros -> Hpath log. rewrite request_wire, perform_log. unfold wire.
  by rewrite Hpath.
Qed.

(** The value the loop of [update_module] leaves in [module_id]. *)
Lemma last_rebinds (module_id : string) (ids : option (list string)) :
  default module_id (ids ≫= last)
  = match ids with
    | Some ids => default module_id (last ids)
    | None => module_id
    end.
Proof. by destruct ids. Qed.

(** X4. Every write operation, and [get_section], is one call: a [POST] for
    the [create_*] operations and [cross_list_section], a [PUT] for the
    [update_*] operations, a [DELETE] for the [delete_*] operations, to the
    path of the resource under the base URL. For [update_module] the module
    of the path is the [module_id] given only when no prerequisite list, or
    an empty one, is given: with a non-empty list it is the last identifier
    of the list, to which the loop over the list has bound [module_id]. None
    carries query parameters; the creations and updates carry their payload,
    and the deletions, the cross-listing and [get_section] carry no body. *)
Theorem write_operations_calls self :
  (∀ account_id name course_code sis_course_id,
     one_call self POST ("accounts/" +:+ account_id +:+ "/courses") None
       (Some (Client.create_course_data name course_code sis_course_id))
       (Client.create_course self account_id name course_code sis_course_id))
  ∧ (∀ course_id section_name sis_section_id,
       one_call self POST ("courses/" +:+ course_id +:+ "/sections") None
         (Some (Client.create_section_data section_name sis_section_id))
         (Client.create_section self course_id section_name sis_section_id))
  ∧ (∀ section_id,
       one_call self GET ("sections/" +:+ section_id) None None
         (Client.get_section self section_id))
  ∧ (∀ section_id section_name,
       one_call self PUT ("sections/" +:+ section_id) None
         (Some (Client.update_section_data section_name))
         (Client.update_section self section_id section_name))
  ∧ (∀ section_id,
       one_call self DELETE ("sections/" +:+ section_id) None None
         (Client.delete_section self section_id))
  ∧ (∀ section_id new_course_id,
       one_call self POST
         ("sections/" +:+ section_id +:+ "/crosslist/" +:+ new_course_id) None None
         (Client.cross_list_section self section_id new_course_id))
  ∧ (∀ course_id name position unlock_at sequential ids final_grade,
       one_call self POST ("courses/" +:+ course_id +:+ "/modules") None
         (Some (Client.create_module_data name position unlock_at sequential ids
                  final_grade))
         (Client.create_module self course_id name position unlock_at sequential
            ids final_grade))
  ∧ (∀ course_id module_id name position unlock_at sequential ids final_grade,
       one_call self PUT
         ("courses/" +:+ course_id +:+ "/modules/"
          +:+ match ids with
              | Some ids => default module_id (last ids)
              | None => module_id
              end)
         None
         (Some (Client.update_module_data name position unlock_at sequential ids
                  final_grade))
         (Client.update_module self course_id module_id name position unlock_at
            sequential ids final_grade))
  ∧ (∀ course_id module_id,
       one_call self DELETE ("courses/" +:+ course_id +:+ "/modules/" +:+ module_id)
         None None (Client.delete_module self course_id module_id))
  ∧ (∀ course_id module_id title type content_id position indent page_url
       external_url new_tab requirement,
       one_call self POST
         ("courses/" +:+ course_id +:+ "/modules/" +:+ module_id +:+ "/items") None
         (Some (Client.create_module_item_data title type content_id position
                  indent page_url external_url new_tab requirement))
         (Client.create_module_item self course_id module_id title type content_id
            position indent page_url external_url new_tab requirement))
  ∧ (∀ course_id module_id item_id title position indent external_url new_tab
       requirement,
       one_call self PUT
         ("courses/" +:+ course_id +:+ "/modules/" +:+ module_id +:+ "/items/"
          +:+ item_id) None
         (Some (Client.update_module_item_data title position indent external_url
                  new_tab requirement))
         (Client.update_module_item self course_id module_id item_id title position
            indent external_url new_tab requirement))
  ∧ (∀ course_id module_id item_id,
       one_call self DELETE
         ("courses/" +:+ course_id +:+ "/modules/" +:+ module_id +:+ "/items/"
          +:+ item_id) None None
         (Client.delete_module_item self course_id module_id item_id))
  ∧ (∀ course_id title body editing_roles published front_page,
       one_call self POST ("courses/" +:+ course_id +:+ "/pages") None
         (Some (Client.create_page_data title body editing_roles published
                  front_page))
         (Client.create_page self course_id title body editing_roles published
            front_page))
  ∧ (∀ course_id page_url title body editing_roles published front_page,
       one_call self PUT ("courses/" +:+ course_id +:+ "/pages/" +:+ page_url) None
         (Some (Client.update_page_data title body editing_roles published
                  front_page))
         (Client.update_page self course_id page_url title body editing_roles
            published front_page))
  ∧ (∀ course_id page_url,
       one_call self DELETE ("courses/" +:+ course_id +:+ "/pages/" +:+ page_url)
         None None (Client.delete_page self course_id page_url)).
Proof.
  repeat split; intros;
    first [ by apply (one_call_request self POST)
          | by apply (one_call_request self PUT)
          | by apply (one_call_request self GET)
          | by apply (one_call_request self DELETE)
          | idtac ].
  unfold Client.update_module. cbv zeta.
  rewrite (last_rebinds module_id ids). by apply (one_call_request self PUT).
Qed.

(** ** The module-item tools *)

(** X5. The completion requirement of the tools [create_module_item] and
    [update_module_item], as it reaches the payload of their one call: the
    [type] field is the requirement type when one is given and not empty, and
    absent otherwise; the [min_score] field is the score when the type is
    [min_score] and a score is given, zero included, and absent otherwise, so
    a score given with another type, or with no type, is dropped. *)
Theorem tool_completion_requirement canvas_client course_id module_id item_id
    title new_title type content_id position indent page_url external_url new_tab
    completion_requirement_type min_score :
  let sent_type :=
    match completion_requirement_type with
    | Some t => if truthy t then Some (VStr t) else None
    | None => None
    end in
  let sent_score :=
    if decide (completion_requirement_type = Some "min_score")
    then VFloat <$> min_score else None in
  (∃ req data,
     Server.create_module_item canvas_client course_id module_id title type
       content_id position indent page_url external_url new_tab
       completion_requirement_type min_score
     = Client.perform canvas_client req
     ∧ req_verb req = POST ∧ req_data req = Some data
     ∧ data !! "module_item[completion_requirement][type]" = sent_type
     ∧ data !! "module_item[completion_requirement][min_score]" = sent_score)
  ∧ (∃ req data,
       Server.update_module_item canvas_client course_id module_id item_id
         new_title position indent external_url new_tab
         completion_requirement_type min_score
       = Client.perform canvas_client req
       ∧ req_verb req = PUT ∧ req_data req = Some data
       ∧ data !! "module_item[completion_requirement][type]" = sent_type
       ∧ data !! "module_item[completion_requirement][min_score]" = sent_score).
Proof.
  cbv zeta. split.
  - unfold Server.create_module_item. rewrite create_module_item_wire.
    eexists _, _. split; [done|]. split; [done|]. split; [done|].
    apply completion_requirement_of_keys; by payload_lookup.
  - unfold Server.update_module_item. rewrite update_module_item_wire.
    eexists _, _. split; [done|]. split; [done|]. split; [done|].
    apply completion_requirement_of_keys; by payload_lookup.
Qed.

(** ** The keys of a payload *)

Lemma is_Some_assign (c : bool) (k k' : string) (v : pyval) (d : payload) :
  is_Some (assign c k' v d !! k) ↔ (c ∧ k = k') ∨ is_Some (d !! k).
Proof.
  unfold assign. destruct c; cbn; [|tauto].
  rewrite lookup_insert_is_Some'. split; [intros [<-|?]|intros [[_ ->]|?]]; tauto.
Qed.

Lemma is_Some_insert (k k' : string) (v : pyval) (d : payload) :
  is_Some (<[k' := v]> d !! k) ↔ k = k' ∨ is_Some (d !! k).
Proof.
  rewrite lookup_insert_is_Some'. split; [intros [<-|?]|intros [->|?]]; tauto.
Qed.

Lemma is_Some_singleton (k k' : string) (v : pyval) :
  is_Some (({[ k' := v ]} : payload) !! k) ↔ k = k'.
Proof.
  destruct (decide (k = k')) as [->|Hk].
  - rewrite lookup_singleton_eq. split; [done|by eexists].
  - rewrite lookup_singleton_ne by done. split; [by intros [? [=]]|done].
Qed.

Lemma is_Some_empty (k : string) : is_Some ((∅ : payload) !! k) ↔ False.
Proof. rewrite lookup_empty. split; [by intros [? [=]]|done]. Qed.

Lemma is_Some_enumerate start ids (d : payload) (k : string) :
  is_Some
    (foldl (λ data '(i, module_id), <[Client.prerequisite_key i := VStr module_id]> data)
       d (enumerate_from start ids) !! k)
  ↔ (∃ i, (start ≤ i < start + length ids)%nat ∧ k = Client.prerequisite_key i)
    ∨ is_Some (d !! k).
Proof.
  revert start d. induction ids as [|x rest IH]; intros start d.
  { cbn. split; [by right|]. intros [(i & Hi & _)|?]; [lia|done]. }
  cbn [enumerate_from foldl length]. rewrite IH, is_Some_insert. split.
  - intros [(i & Hi & ->)|[->|Hd]].
    + left. exists i. split; [lia|done].
    + left. exists start. split; [lia|done].
    + by right.
  - intros [(i & Hi & ->)|Hd]; [|by right; right].
    destruct (decide (i = start)) as [->|Hne]; [by right; left|].
    left. exists i. split; [lia|done].
Qed.

Lemma is_Some_set_prerequisites ids (d : payload) (k : string) :
  is_Some (Client.set_prerequisites ids d !! k)
  ↔ (∃ i, (i < length ids)%nat ∧ k = Client.prerequisite_key i) ∨ is_Some (d !! k).
Proof.
  unfold Client.set_prerequisites, enumerate. rewrite is_Some_enumerate. split.
  - intros [(i & Hi & ->)|Hd]; [left; exists i; split; [lia|done]|by right].
  - intros [(i & Hi & ->)|Hd]; [left; exists i; split; [lia|done]|by right].
Qed.

Lemma is_Some_set_completion_requirement requirement (d : payload) (k : string) :
  is_Some (Client.set_completion_requirement requirement d !! k)
  ↔ (truthy requirement ∧ k = "module_item[completion_requirement][type]")
    ∨ (truthy requirement ∧ is_Some (default ∅ requirement !! "min_score")
       ∧ k = "module_item[completion_requirement][min_score]")
    ∨ is_Some (d !! k).
Proof.
  unfold Client.set_completion_requirement.
  destruct requirement as [fields|]; cbn [truthy truthy_option default]; [|cbn; tauto].
  destruct (truthy fields); cbn; [|tauto].
  destruct (fields !! "min_score") as [score|] eqn:Hscore.
  - assert (Hscored : is_Some (Some score)) by (by eexists).
    rewrite !is_Some_insert. tauto.
  - assert (Hnone : ¬ is_Some (@None pyval)) by (by intros [? [=]]).
    rewrite is_Some_insert. tauto.
Qed.

(** X6. The payloads of the course and section operations have exactly
    these keys: the name, always, except in [update_section], and each
    optional field when it is given and not empty. *)
Theorem course_and_section_payload_keys (k : string) :
  (∀ name course_code sis_course_id,
     is_Some (Client.create_course_data name course_code sis_course_id !! k)
     ↔ k = "course[name]"
       ∨ (truthy course_code ∧ k = "course[course_code]")
       ∨ (truthy sis_course_id ∧ k = "course[sis_course_id]"))
  ∧ (∀ section_name sis_section_id,
       is_Some (Client.create_section_data section_name sis_section_id !! k)
       ↔ k = "course_section[name]"
         ∨ (truthy sis_section_id ∧ k = "course_section[sis_section_id]"))
  ∧ (∀ section_name,
       is_Some (Client.update_section_data section_name !! k)
       ↔ truthy section_name ∧ k = "course_section[name]").
Proof.
  unfold Client.create_course_data, Client.create_section_data,
    Client.update_section_data. cbv zeta.
  repeat split; intros;
    rewrite ?is_Some_assign, ?is_Some_singleton, ?is_Some_empty in *; tauto.
Qed.

(** X7. The payloads of [create_module] and [update_module] have exactly
    these keys: the name (always in a creation), each scalar field that is
    given, one indexed key for each position of a given prerequisite list
    and, in [update_module] alone, the [[]] key for a given empty list. *)
Theorem module_payload_keys (k : string) position unlock_at sequential ids
    final_grade :
  let scalar_or_indexed :=
    (is_not_None position ∧ k = "module[position]")
    ∨ (is_not_None unlock_at ∧ k = "module[unlock_at]")
    ∨ (is_not_None sequential ∧ k = "module[require_sequential_progress]")
    ∨ (is_not_None final_grade ∧ k = "module[publish_final_grade]")
    ∨ (∃ i, (i < length (default [] ids))%nat ∧ k = Client.prerequisite_key i) in
  (∀ name,
     is_Some (Client.create_module_data name position unlock_at sequential ids
                final_grade !! k)
     ↔ k = "module[name]" ∨ scalar_or_indexed)
  ∧ (∀ name,
       is_Some (Client.update_module_data name position unlock_at sequential ids
                  final_grade !! k)
       ↔ (is_not_None name ∧ k = "module[name]")
         ∨ (ids = Some [] ∧ k = "module[prerequisite_module_ids][]")
         ∨ scalar_or_indexed).
Proof.
  cbv zeta. unfold Client.create_module_data, Client.update_module_data. cbv zeta.
  split; intros name.
  - rewrite is_Some_assign.
    destruct ids as [[|first rest]|]; cbn [truthy truthy_option truthy_list default].
    + rewrite !is_Some_assign, is_Some_singleton. cbn [length].
      split; [tauto|]. intros [?|[?|[?|[?|[?|(i & Hi & _)]]]]]; [tauto..|simpl in Hi; lia].
    + rewrite is_Some_set_prerequisites, !is_Some_assign, is_Some_singleton. tauto.
    + rewrite !is_Some_assign, is_Some_singleton. cbn [length].
      split; [tauto|]. intros [?|[?|[?|[?|[?|(i & Hi & _)]]]]]; [tauto..|simpl in Hi; lia].
  - rewrite is_Some_assign.
    destruct ids as [[|first rest]|]; cbn [truthy truthy_list negb default].
    + rewrite is_Some_insert, !is_Some_assign, is_Some_empty. cbn [length].
      split; [tauto|].
      intros [?|[[_ ->]|[?|[?|[?|[?|(i & Hi & _)]]]]]]; [tauto..|simpl in Hi; lia].
    + rewrite is_Some_set_prerequisites, !is_Some_assign, is_Some_empty.
      split; [tauto|]. intros [?|[[[=] _]|?]]; tauto.
    + rewrite !is_Some_assign, is_Some_empty. cbn [length].
      split; [tauto|].
      intros [?|[[[=] _]|[?|[?|[?|[?|(i & Hi & _)]]]]]]; [tauto..|simpl in Hi; lia].
Qed.

(** X8. The payloads of [create_module_item] and [update_module_item] have
    exactly these keys: in a creation the title and the type, always, and
    the content identifier unless the type is [ExternalUrl]; each scalar
    field that is given, the two URL fields of a creation only with their
    type; and, for a completion requirement that is given and not empty, its
    type and, if it has one, its minimum score. *)
Theorem module_item_payload_keys (k : string) position indent external_url new_tab
    requirement :
  let completion :=
    (truthy requirement ∧ k = "module_item[completion_requirement][type]")
    ∨ (truthy requirement ∧ is_Some (default ∅ requirement !! "min_score")
       ∧ k = "module_item[completion_requirement][min_score]") in
  (∀ title type content_id page_url,
     is_Some (Client.create_module_item_data title type content_id position indent
                page_url external_url new_tab requirement !! k)
     ↔ k = "module_item[title]"
       ∨ k = "module_item[type]"
       ∨ (type ≠ "ExternalUrl" ∧ k = "module_item[content_id]")
       ∨ (is_not_None position ∧ k = "module_item[position]")
       ∨ (is_not_None indent ∧ k = "module_item[indent]")
       ∨ (is_not_None page_url ∧ type = "Page" ∧ k = "module_item[page_url]")
       ∨ (is_not_None external_url ∧ type = "ExternalUrl"
          ∧ k = "module_item[external_url]")
       ∨ (is_not_None new_tab ∧ k = "module_item[new_tab]")
       ∨ completion)
  ∧ (∀ title,
       is_Some (Client.update_module_item_data title position indent external_url
                  new_tab requirement !! k)
       ↔ (is_not_None title ∧ k = "module_item[title]")
         ∨ (is_not_None position ∧ k = "module_item[position]")
         ∨ (is_not_None indent ∧ k = "module_item[indent]")
         ∨ (is_not_None external_url ∧ k = "module_item[external_url]")
         ∨ (is_not_None new_tab ∧ k = "module_item[new_tab]")
         ∨ completion).
Proof.
  cbv zeta.
  unfold Client.create_module_item_data, Client.update_module_item_data. cbv zeta.
  split; intros.
  - rewrite is_Some_set_completion_requirement, !is_Some_assign, is_Some_insert,
      is_Some_singleton.
    rewrite !andb_True, negb_True, !bool_decide_spec. tauto.
  - rewrite is_Some_set_completion_requirement, !is_Some_assign, is_Some_empty.
    tauto.
Qed.

(** X9. The payloads of [create_page] and [update_page] and the query of
    [list_pages] have exactly these keys: in a creation the title and the
    body, always; each page field that is given; the search term when it is
    given and not empty. *)
Theorem page_payload_keys (k : string) editing_roles published front_page :
  let optional :=
    (is_not_None editing_roles ∧ k = "wiki_page[editing_roles]")
    ∨ (is_not_None published ∧ k = "wiki_page[published]")
    ∨ (is_not_None front_page ∧ k = "wiki_page[front_page]") in
  (∀ title body,
     is_Some (Client.create_page_data title body editing_roles published
                front_page !! k)
     ↔ k = "wiki_page[title]" ∨ k = "wiki_page[body]" ∨ optional)
  ∧ (∀ title body,
       is_Some (Client.update_page_data title body editing_roles published
                  front_page !! k)
       ↔ (is_not_None title ∧ k = "wiki_page[title]")
         ∨ (is_not_None body ∧ k = "wiki_page[body]")
         ∨ optional)
  ∧ (∀ search_term,
       is_Some (Client.list_pages_params search_term !! k)
       ↔ truthy search_term ∧ k = "search_term").
Proof.
  cbv zeta.
  unfold Client.create_page_data, Client.update_page_data, Client.list_pages_params.
  cbv zeta. repeat split; intros;
    rewrite ?is_Some_assign, ?is_Some_insert, ?is_Some_singleton, ?is_Some_empty in *;
    tauto.
Qed.

(** ** The slug of a page *)

Lemma ends_with_cons_ne sep c rest :
  c ≠ sep → ends_with sep (String c rest) = ends_with sep rest.
Proof.
  intros Hc. destruct rest as [|c' rest']; [|done].
  cbn. by rewrite bool_decide_eq_false_2.
Qed.

Lemma ends_with_cons_eq sep rest :
  ends_with sep (String sep rest) = true ↔ rest = "" ∨ ends_with sep rest = true.
Proof.
  destruct rest as [|c' rest'].
  - cbn. rewrite bool_decide_eq_true_2 by done. tauto.
  - change (ends_with sep (String sep (String c' rest')))
      with (ends_with sep (String c' rest')).
    split; [by right|]. by intros [?|?].
Qed.

Lemma occurs_false_ends_with sep s : occurs sep s = false → ends_with sep s = false.
Proof.
  induction s as [|c rest IH]; first done.
  cbn [occurs]. destruct (decide (c = sep)) as [->|Hc]; first done.
  intros Hrest. rewrite ends_with_cons_ne by done. by apply IH.
Qed.

Lemma str_split_no_sep sep s : occurs sep s = false → str_split sep s = [s].
Proof.
  induction s as [|c rest IH]; first done.
  cbn [occurs str_split]. destruct (decide (c = sep)) as [->|Hc]; first done.
  intros Hrest. by rewrite IH.
Qed.

(** The last piece is the whole string exactly when there is no separator. *)
Lemma last_piece_whole sep s :
  last_piece (str_split sep s) = s ↔ occurs sep s = false.
Proof.
  split.
  - intros Hs. rewrite <- Hs. apply last_piece_no_sep.
  - intros Hs. by rewrite str_split_no_sep.
Qed.

(** The last piece is empty exactly for the empty string and for a string
    that ends with the separator. *)
Lemma last_piece_empty sep s :
  last_piece (str_split sep s) = "" ↔ s = "" ∨ ends_with sep s = true.
Proof.
  induction s as [|c rest IH]; first by split; [left|].
  cbn [str_split]. destruct (decide (c = sep)) as [->|Hc].
  - destruct (str_split_cons sep rest) as (piece & pieces & Hrest).
    rewrite Hrest, last_piece_cons_cons, <- Hrest, IH, ends_with_cons_eq.
    split; [by right|]. by intros [?|?].
  - rewrite ends_with_cons_ne by done.
    destruct (last_piece_shape sep rest)
      as [Hone|(prefix & piece & pieces & Hrest & Hne & Hshape)].
    + rewrite Hone. cbn.
      assert (Hends : ends_with sep rest = false).
      { apply occurs_false_ends_with. rewrite <- (last_piece_no_sep sep rest).
        by rewrite Hone. }
      rewrite Hends. split; [done|]. by intros [?|?].
    + rewrite Hrest in IH |- *. destruct pieces as [|piece' pieces]; first done.
      rewrite last_piece_cons_cons in IH |- *. rewrite IH.
      split; [intros [->|?]; [done|by right]|]. intros [?|?]; [done|by right].
Qed.

Lemma occurs_append_sep sep prefix s : occurs sep (prefix +:+ String sep s) = true.
Proof.
  induction prefix as [|c rest IH].
  { change (occurs sep (String sep s) = true). cbn [occurs].
    by destruct (decide (sep = sep)). }
  change (occurs sep (String c (rest +:+ String sep s)) = true).
  cbn [occurs]. by destruct (decide (c = sep)).
Qed.

(** What follows the last separator is determined. *)
Lemma suffix_after_last_unique sep prefix1 prefix2 s1 s2 :
  occurs sep s1 = false → occurs sep s2 = false →
  prefix1 +:+ String sep s1 = prefix2 +:+ String sep s2 → s1 = s2.
Proof.
  intros Hs1 Hs2. revert prefix2.
  induction prefix1 as [|c1 rest1 IH]; intros [|c2 rest2] Heq.
  - by injection Heq.
  - injection Heq as _ Heq. by rewrite Heq, occurs_append_sep in Hs1.
  - injection Heq as _ Heq. by rewrite <- Heq, occurs_append_sep in Hs2.
  - injection Heq as _ Heq. by apply (IH rest2).
Qed.

Lemma last_piece_unique sep url s :
  occurs sep s = false →
  (url = s ∨ ∃ prefix, url = prefix +:+ String sep s) →
  s = last_piece (str_split sep url).
Proof.
  intros Hs Hurl. pose proof (last_piece_no_sep sep url) as Hslug.
  destruct (last_piece_suffix sep url) as [Hwhole|[prefix' Hsplit]];
    destruct Hurl as [Hu|[prefix Hu]].
  - by rewrite <- Hwhole.
  - rewrite <- Hwhole in Hslug. rewrite Hu in Hslug.
    by rewrite occurs_append_sep in Hslug.
  - rewrite <- Hu in Hs. rewrite Hsplit in Hs.
    by rewrite occurs_append_sep in Hs.
  - apply (suffix_after_last_unique sep prefix prefix'); [done..|].
    transitivity url; [by symmetry|exact Hsplit].
Qed.

(** X10. The slug that [create_page_and_add_to_module] takes from the page
    returned. A page that is no mapping, or whose [url] is no string, raises
    [AttributeError]; a page without [url] gives the empty slug; a [url]
    string gives its part after the last slash: the slug has no slash, the
    [url] is the slug or a prefix, a slash and the slug, and no other string
    is so. The slug is empty exactly when the [url] is empty or ends with a
    slash, and the whole [url] exactly when it has no slash. *)
Theorem page_slug_cases :
  (∀ page, not_a_mapping page → Server.page_slug page = Raise AttributeError)
  ∧ (∀ fields, fields !! "url" = None → Server.page_slug (VDict fields) = Return "")
  ∧ (∀ fields v,
       fields !! "url" = Some v → (∀ url, v ≠ VStr url) →
       Server.page_slug (VDict fields) = Raise AttributeError)
  ∧ (∀ fields url,
       fields !! "url" = Some (VStr url) →
       ∃ slug,
         Server.page_slug (VDict fields) = Return slug
         ∧ occurs slash slug = false
         ∧ (url = slug ∨ ∃ prefix, url = prefix +:+ "/" +:+ slug)
         ∧ (∀ s, occurs slash s = false →
                 (url = s ∨ ∃ prefix, url = prefix +:+ "/" +:+ s) → s = slug)
         ∧ (slug = "" ↔ url = "" ∨ ends_with slash url = true)
         ∧ (slug = url ↔ occurs slash url = false)).
Proof.
  unfold Server.page_slug. split; [|split; [|split]].
  - by intros [] Hpage.
  - intros fields Hurl. cbn. by rewrite Hurl.
  - intros fields v Hurl Hv. cbn. rewrite Hurl. cbn.
    destruct v; try done. by destruct (Hv s).
  - intros fields url Hurl. cbn. rewrite Hurl. cbn. eexists. split; [done|].
    split; [apply last_piece_no_sep|]. split; [apply last_piece_suffix|].
    split; [intros s; apply last_piece_unique|].
    split; [apply last_piece_empty|]. apply last_piece_whole.
Qed.

(** ** Adding a page to a module *)

Lemma add_page_payload item_title content_id position indent page_url new_tab :
  let data :=
    Client.create_module_item_data item_title "Page" content_id position indent
      (Some page_url) None new_tab None in
  data !! "module_item[title]" = Some item_title
  ∧ data !! "module_item[type]" = Some (VStr "Page")
  ∧ data !! "module_item[content_id]" = Some (VStr content_id)
  ∧ data !! "module_item[page_url]" = Some (VStr page_url)
  ∧ data !! "module_item[external_url]" = None
  ∧ data !! "module_item[completion_requirement][type]" = None.
Proof.
  cbv zeta. unfold Client.create_module_item_data. cbv zeta.
  repeat split; payload_lookup; by simplify_map_eq.
Qed.

(** X11. [add_page_to_module] of the client fetches the page and then posts
    the module item. If the fetch raises, that error is raised after the one
    call; if the fetched page is no mapping, [AttributeError] is raised
    after the one call; in both cases nothing is posted. Otherwise the item
    is posted with type [Page], with the [page_url] given by the caller, with
    the [str] of the [id] of the fetched page as content identifier (of the
    empty string when the page has none), and with the title given, or, when
    none is given or it is empty, the title of the fetched page (the empty
    string when the page has none). *)
Theorem add_page_to_module_behaviour py_str self course_id module_id page_url
    title position indent new_tab log :
  let run :=
    Client.add_page_to_module py_str self course_id module_id page_url title
      position indent new_tab log in
  let fetch :=
    wire self GET ("courses/" +:+ course_id +:+ "/pages/" +:+ page_url) None None in
  let fetched := Client.get_page self course_id page_url log in
  (∀ e, fetched.1 = Raise e → run = (Raise e, log ++ [fetch]))
  ∧ (∀ page,
       fetched.1 = Return page → not_a_mapping page →
       run = (Raise AttributeError, log ++ [fetch]))
  ∧ (∀ fields,
       fetched.1 = Return (VDict fields) →
       ∃ data,
         run = Client.perform self
                 (wire self POST
                    ("courses/" +:+ course_id +:+ "/modules/" +:+ module_id
                     +:+ "/items") None (Some data))
                 (log ++ [fetch])
         ∧ data !! "module_item[type]" = Some (VStr "Page")
         ∧ data !! "module_item[page_url]" = Some (VStr page_url)
         ∧ data !! "module_item[content_id]"
           = Some (VStr (py_str (default (VStr "") (fields !! "id"))))
         ∧ data !! "module_item[title]"
           = Some (if truthy title then to_val title
                   else default (VStr "") (fields !! "title"))
         ∧ data !! "module_item[external_url]" = None
         ∧ data !! "module_item[completion_requirement][type]" = None).
Proof.
  intros run fetch fetched.
  assert (Hfetched : fetched = (fetched.1, log ++ [fetch])).
  { unfold fetched. rewrite get_page_wire. apply perform_eta. }
  unfold run, Client.add_page_to_module, mbind, M_bind. fold fetched.
  rewrite Hfetched. cbn [fst]. split; [|split].
  - by intros e ->.
  - intros page -> Hpage. unfold lift, Client.title_or_page_title.
    destruct page; try done; by destruct (truthy title).
  - intros fields ->. unfold lift, Client.title_or_page_title. cbn [py_get].
    exists (Client.create_module_item_data
              (if truthy title then to_val title
               else default (VStr "") (fields !! "title"))
              "Page" (py_str (default (VStr "") (fields !! "id")))
              position indent (Some page_url) None new_tab None).
    split; [by destruct (truthy title)|].
    destruct (add_page_payload
                (if truthy title then to_val title
                 else default (VStr "") (fields !! "title"))
                (py_str (default (VStr "") (fields !! "id")))
                position indent page_url new_tab)
      as (Htitle & Htype & Hcontent & Hurl & Hexternal & Hcompletion).
    done.
Qed.

(** X12. [create_page_and_add_to_module], end to end. When the creation
    returns a page whose [url] is a string and the fetch by its slug returns
    a mapping, the third call posts a module item of type [Page] whose
    [page_url] is the slug, whose content identifier is the [str] of the
    [id] of the page as fetched, and whose title is the title given to the
    tool, or the title of the page as fetched when the title given is
    empty. *)
Theorem create_page_and_add_to_module_item py_str canvas_client course_id
    module_id title body editing_roles published front_page position indent
    new_tab log created url fetched :
  let create :=
    wire canvas_client POST ("courses/" +:+ course_id +:+ "/pages") None
      (Some (Client.create_page_data title body editing_roles published front_page)) in
  let slug := last_piece (str_split slash url) in
  let fetch :=
    wire canvas_client GET ("courses/" +:+ course_id +:+ "/pages/" +:+ slug)
      None None in
  (Client.create_page canvas_client course_id title body editing_roles published
     front_page log).1 = Return (VDict created) →
  created !! "url" = Some (VStr url) →
  (Client.get_page canvas_client course_id slug (log ++ [create])).1
  = Return (VDict fetched) →
  ∃ data,
    Server.create_page_and_add_to_module py_str canvas_client course_id module_id
      title body editing_roles published front_page position indent new_tab log
    = Client.perform canvas_client
        (wire canvas_client POST
           ("courses/" +:+ course_id +:+ "/modules/" +:+ module_id +:+ "/items")
           None (Some data))
        (log ++ [create; fetch])
    ∧ data !! "module_item[type]" = Some (VStr "Page")
    ∧ data !! "module_item[page_url]" = Some (VStr slug)
    ∧ data !! "module_item[content_id]"
      = Some (VStr (py_str (default (VStr "") (fetched !! "id"))))
    ∧ data !! "module_item[title]"
      = Some (if truthy title then VStr title
              else default (VStr "") (fetched !! "title")).
Proof.
  intros create slug fetch Hcreated Hurl Hfetched.
  unfold Server.create_page_and_add_to_module, mbind, M_bind.
  rewrite create_page_wire, perform_eta in Hcreated |- *. fold create in Hcreated |- *.
  cbn [fst] in Hcreated. rewrite Hcreated.
  unfold lift, Server.page_slug. cbn. rewrite Hurl. cbn. fold slug.
  assert (Hpage :
    Client.get_page canvas_client course_id slug (log ++ [create])
    = (Return (VDict fetched), (log ++ [create]) ++ [fetch])).
  { rewrite get_page_wire, perform_eta in Hfetched |- *. cbn [fst] in Hfetched.
    by rewrite Hfetched. }
  rewrite (add_page_to_module_run _ _ _ _ _ _ _ _ _ _ _ _ Hpage).
  rewrite create_module_item_wire, <- app_assoc. eexists. split; [reflexivity|].
  destruct (add_page_payload
              (if truthy (Some title) then to_val (Some title)
               else default (VStr "") (fetched !! "title"))
              (py_str (default (VStr "") (fetched !! "id")))
              position indent slug new_tab)
    as (Htitle & Htype & Hcontent & Hpage_url & _).
  done.
Qed.

Lemma create_page_and_add_to_module_item_witness :
  ∃ data,
    Server.create_page_and_add_to_module Samples.sample_str Samples.ok_client
      "1" "5" "Intro" "<p>Welcome</p>" None (Some true) None None None None []
    = Client.perform Samples.ok_client
        (wire Samples.ok_client POST
           ("courses/" +:+ "1" +:+ "/modules/" +:+ "5" +:+ "/items") None (Some data))
        ([] ++ [wire Samples.ok_client POST ("courses/" +:+ "1" +:+ "/pages") None
                  (Some (Client.create_page_data "Intro" "<p>Welcome</p>" None
                           (Some true) None));
                wire Samples.ok_client GET
                  ("courses/" +:+ "1" +:+ "/pages/"
                   +:+ last_piece
                         (str_split slash "https://canvas.example/courses/1/pages/intro"))
                  None None])
    ∧ data !! "module_item[type]" = Some (VStr "Page")
    ∧ data !! "module_item[page_url]"
      = Some (VStr (last_piece
                      (str_split slash "https://canvas.example/courses/1/pages/intro")))
    ∧ data !! "module_item[content_id]"
      = Some (VStr (Samples.sample_str
                      (default (VStr "")
                         ((<["url" := VStr "https://canvas.example/courses/1/pages/intro"]>
                             (<["title" := VStr "Intro"]> {[ "id" := VInt 7 ]})
                           : payload) !! "id"))))
    ∧ data !! "module_item[title]"
      = Some (if truthy "Intro" then VStr "Intro"
              else default (VStr "")
                     ((<["url" := VStr "https://canvas.example/courses/1/pages/intro"]>
                         (<["title" := VStr "Intro"]> {[ "id" := VInt 7 ]})
                       : payload) !! "title")).
Proof.
  apply (create_page_and_add_to_module_item Samples.sample_str Samples.ok_client
           "1" "5" "Intro" "<p>Welcome</p>" None (Some true) None None None None []
           (<["url" := VStr "https://canvas.example/courses/1/pages/intro"]>
              (<["title" := VStr "Intro"]> {[ "id" := VInt 7 ]}))
           "https://canvas.example/courses/1/pages/intro"
           (<["url" := VStr "https://canvas.example/courses/1/pages/intro"]>
              (<["title" := VStr "Intro"]> {[ "id" := VInt 7 ]})));
    reflexivity.
Defined.

(** X17. When the page that the creation returns has no [url], the slug is
    empty and [create_page_and_add_to_module] goes on: its second call is a
    [GET] of [courses/<course_id>/pages/], the path of the page listing. *)
Theorem create_page_and_add_to_module_without_url py_str canvas_client course_id
    module_id title body editing_roles published front_page position indent
    new_tab log created :
  let create :=
    wire canvas_client POST ("courses/" +:+ course_id +:+ "/pages") None
      (Some (Client.create_page_data title body editing_roles published front_page)) in
  (Client.create_page canvas_client course_id title body editing_roles published
     front_page log).1 = Return (VDict created) →
  created !! "url" = None →
  ∃ rest,
    (Server.create_page_and_add_to_module py_str canvas_client course_id module_id
       title body editing_roles published front_page position indent new_tab log).2
    = log ++ create
          :: WireRequest GET
               (Client.api_url canvas_client +:+ "/" +:+ "courses/" +:+ course_id
                +:+ "/pages/")
               None None ("Bearer " +:+ Client.api_token canvas_client)
          :: rest.
Proof.
  intros create Hcreated Hurl.
  unfold Server.create_page_and_add_to_module, mbind, M_bind.
  rewrite create_page_wire, perform_eta in Hcreated |- *. fold create in Hcreated |- *.
  cbn [fst] in Hcreated. rewrite Hcreated.
  unfold lift, Server.page_slug. cbn. rewrite Hurl. cbn.
  destruct (add_page_to_module_calls py_str canvas_client course_id module_id ""
              (Some title) position indent new_tab (log ++ [create]))
    as [[e Hrun]|(item_title & content_id & Hrun)]; cbv zeta in Hrun; rewrite Hrun.
  - exists []. by rewrite <- app_assoc.
  - rewrite create_module_item_wire, perform_log, <- !app_assoc. by eexists.
Qed.

Lemma create_page_and_add_to_module_without_url_witness :
  ∃ rest,
    (Server.create_page_and_add_to_module Samples.sample_str
       (Client.init "https://canvas.example/api/v1" "token"
          (λ _ _, Responded (Response 200 "{...}"
                               (Decoded (VDict {[ "id" := VInt 7 ]})) "")))
       "1" "5" "Intro" "<p>Welcome</p>" None None None None None None []).2
    = [] ++ wire (Client.init "https://canvas.example/api/v1" "token"
                    (λ _ _, Responded (Response 200 "{...}"
                                         (Decoded (VDict {[ "id" := VInt 7 ]})) "")))
               POST ("courses/" +:+ "1" +:+ "/pages") None
               (Some (Client.create_page_data "Intro" "<p>Welcome</p>" None None None))
          :: WireRequest GET "https://canvas.example/api/v1/courses/1/pages/"
               None None "Bearer token"
          :: rest.
Proof.
  apply (create_page_and_add_to_module_without_url Samples.sample_str
           (Client.init "https://canvas.example/api/v1" "token"
              (λ _ _, Responded (Response 200 "{...}"
                                   (Decoded (VDict {[ "id" := VInt 7 ]})) "")))
           "1" "5" "Intro" "<p>Welcome</p>" None None None None None None []
           {[ "id" := VInt 7 ]});
    reflexivity.
Defined.

(** ** The client's base URL *)

Lemma rstrip_cons chars c rest :
  rstrip chars (String c rest)
  = match rstrip chars rest with
    | EmptyString => if char_in c chars then EmptyString else String c EmptyString
    | kept => String c kept
    end.
Proof. reflexivity. Qed.

Lemma rstrip_unchanged s : ends_with slash s = false → rstrip "/" s = s.
Proof.
  induction s as [|c rest IH]; first done.
  destruct rest as [|c' rest'].
  - cbn. unfold slash. destruct (decide _) as [->|Hc]; [|done].
    by rewrite bool_decide_eq_true_2.
  - intros Hends. by rewrite rstrip_cons, IH.
Qed.

(** X13. The client keeps the base URL without its trailing slashes: the
    URL given is the URL held followed by slashes only, the URL held does not
    end in a slash, and no other string is so. Hence the URL held is the URL
    given exactly when that one does not end in a slash, and building a
    client again from the URL held changes nothing. The token and the
    session are kept as given. *)
Theorem init_api_url base token s :
  let self := Client.init base token s in
  (∃ k, base = Client.api_url self +:+ slashes k)
  ∧ ends_with slash (Client.api_url self) = false
  ∧ (∀ kept k,
       base = kept +:+ slashes k → ends_with slash kept = false →
       kept = Client.api_url self)
  ∧ (Client.api_url self = base ↔ ends_with slash base = false)
  ∧ Client.init (Client.api_url self) token s = self
  ∧ Client.api_token self = token
  ∧ Client.client_session self = s.
Proof.
  cbv zeta. unfold Client.init.
  cbn [Client.api_url Client.api_token Client.client_session].
  split; [apply rstrip_suffix|]. split; [apply rstrip_ends|].
  split; [|split; [|split; [|done]]].
  - intros kept k -> Hkept. by rewrite rstrip_slashes, rstrip_unchanged.
  - split; [intros <-; apply rstrip_ends|apply rstrip_unchanged].
  - by rewrite (rstrip_unchanged (rstrip "/" base)) by apply rstrip_ends.
Qed.

(** ** Configuration and start-up *)

Lemma truthy_string_true (s : string) : truthy s = true ↔ s ≠ "".
Proof. by destruct s. Qed.

(** X14. A configuration is configured exactly when its URL and its token
    are both not empty; read from the environment, exactly when
    [CANVAS_API_URL] and [CANVAS_API_TOKEN] are both set and not empty. *)
Theorem is_configured_iff :
  (∀ config,
     Config.is_configured config = true
     ↔ Config.api_url config ≠ "" ∧ Config.api_token config ≠ "")
  ∧ (∀ environ : gmap string string,
       Config.is_configured (Config.new environ) = true
       ↔ ∃ url token,
           environ !! "CANVAS_API_URL" = Some url ∧ url ≠ ""
           ∧ environ !! "CANVAS_API_TOKEN" = Some token ∧ token ≠ "").
Proof.
  assert (Hconfig : ∀ config,
    Config.is_configured config = true
    ↔ Config.api_url config ≠ "" ∧ Config.api_token config ≠ "").
  { intros [url token]. unfold Config.is_configured, Config.py_and. cbn.
    destruct url as [|c url]; cbn; [by split; [|intros [? _]]|].
    rewrite truthy_string_true. by split; [|intros [_ ?]]. }
  split; [exact Hconfig|]. intros environ. rewrite Hconfig. cbn.
  destruct (environ !! "CANVAS_API_URL") as [url|],
    (environ !! "CANVAS_API_TOKEN") as [token|]; cbn.
  - split; [intros [? ?]; by exists url, token|]. by intros (? & ? & [= <-] & ? & [= <-] & ?).
  - split; [by intros [_ ?]|]. by intros (? & ? & _ & _ & [=] & _).
  - split; [by intros [? _]|]. by intros (? & ? & [=] & _).
  - split; [by intros [? _]|]. by intros (? & ? & [=] & _).
Qed.

(** X15. [load_config] reads at most one file, the first of the three
    locations that exists: a variable the environment already has keeps its
    value, the empty one included, and any other variable gets the value
    that file gives it, none when no file exists or the file does not
    mention it. The configuration is read from the environment so
    completed. *)
Theorem load_config_precedence (path : Type) (cwd_env home_env project_env : path)
    (files : path → option (gmap string string)) (environ : gmap string string) :
  let loaded :=
    Config.load_config path cwd_env home_env project_env files environ in
  let first_file :=
    match files cwd_env, files home_env, files project_env with
    | Some file, _, _ => Some file
    | None, Some file, _ => Some file
    | None, None, found => found
    end in
  (∀ name value, environ !! name = Some value → loaded.2 !! name = Some value)
  ∧ (∀ name,
       environ !! name = None →
       loaded.2 !! name = match first_file with
                          | Some file => file !! name
                          | None => None
                          end)
  ∧ loaded.1 = Config.new loaded.2.
Proof.
  cbv zeta. unfold Config.load_config. cbn [fst snd Config.load_first].
  unfold Config.load_dotenv.
  split; [|split; [|done]].
  - intros name value Hname.
    destruct (files cwd_env), (files home_env), (files project_env);
      by rewrite ?(lookup_union_Some_l _ _ _ _ Hname).
  - intros name Hname.
    destruct (files cwd_env), (files home_env), (files project_env);
      by rewrite ?lookup_union_r.
Qed.

(** X16. [main] starts nothing and exits with status 1 when the
    configuration it loads is not configured. Otherwise it runs exactly one
    command, [mcp dev <server>] or [mcp install <server>] after the mode,
    returns when the command completes and exits with status 1 when the
    command fails or the [mcp] program is not found. *)
Theorem main_start (path : Type) (cwd_env home_env project_env : path)
    (files : path → option (gmap string string)) (server_path : string)
    (subprocess_run : list string → Main.run_outcome) (args_mode : Main.mode)
    (environ : gmap string string) :
  let config :=
    (Config.load_config path cwd_env home_env project_env files environ).1 in
  let run :=
    Main.main path cwd_env home_env project_env files server_path subprocess_run
      args_mode environ in
  let command := ["mcp"; Main.mode_name args_mode; server_path] in
  (Config.is_configured config = false → run = (Main.Exit 1, []))
  ∧ (Config.is_configured config = true →
     run.2 = [command]
     ∧ (run.1 = Main.Returns ↔ subprocess_run command = Main.Completed)
     ∧ (run.1 = Main.Exit 1 ↔ subprocess_run command ≠ Main.Completed)).
Proof.
  cbv zeta. unfold Main.main. split.
  - by intros ->.
  - intros ->. cbn [negb].
    destruct args_mode; cbn [Main.mode_name];
      destruct (subprocess_run _); cbn; by repeat split.
Qed.

(** X18. [update_module] with a non-empty prerequisite list does not address
    the module it is given: its one call is a [PUT] to the module named by
    the last identifier of the list, with the payload of the update. *)
Theorem update_module_addresses_last_prerequisite self course_id module_id name
    position unlock_at sequential earlier last_id final_grade :
  one_call self PUT ("courses/" +:+ course_id +:+ "/modules/" +:+ last_id) None
    (Some (Client.update_module_data name position unlock_at sequential
             (Some (earlier ++ [last_id])) final_grade))
    (Client.update_module self course_id module_id name position unlock_at
       sequential (Some (earlier ++ [last_id])) final_grade).
Proof.
  unfold Client.update_module. cbv zeta. cbn [mbind option_bind].
  rewrite last_snoc. by apply (one_call_request self PUT).
Qed.

(** [update_module("1", "42", prerequisite_module_ids=["7"])] goes to module 7. *)
Example update_module_scenario :
  req_url <$> calls (Client.update_module Samples.ok_client "1" "42" None None None
                       None (Some ["7"]) None) []
  = ["https://canvas.example/api/v1/courses/1/modules/7"].
Proof. reflexivity. Qed.
